(** * Oracle Sales Forecaster backend: the CSV analysis and forecast pipeline

    A shallow embedding of [main.py] and [auth.py]: the upload validator
    and its file store, the historical analysis, the forecast endpoint with
    its insight text, the CSV export, and the account handlers.

    Conventions of the embedding.
    - A text is the sequence of the bytes of its UTF-8 encoding.
    - The upload directory is a finite map from paths to file contents.
      Whether the operating system can create a file under a path is a
      field of [Libraries].
    - A parsed CSV is a [DataFrame]: labelled columns, each a [Series] of
      one dtype (int64, float64, bool or object).  int64 arithmetic wraps
      around; float64 values are the binary64 floats of the kernel.
    - Library entry points whose internals the program does not contain
      (the CSV reader, the date parser, number formatting, the float
      reductions of pandas, the forecasting model) are the fields of the
      class [Libraries], over which the handlers are defined.
    - The answer of a handler is what the client gets: [Ok] with the
      payload when the handler returns and the framework can write its
      value as JSON, [HTTPException] with status and detail as raised by
      the handler, or [Unhandled] (status 500) for an exception that no
      handler code catches, the one of the JSON writer included. *)

From Stdlib Require Import Ascii ZArith Uint63 Floats.
From Stdlib Require Import Sorted Permutation.
From stdpp Require Import gmap strings list fin_maps pretty.

Local Open Scope string_scope.

(** ** Results of a request handler *)

Inductive Result (A : Type) : Type :=
| Ok (a : A)
| HTTPException (status_code : nat) (detail : string)
| Unhandled.
Arguments Ok {A} a.
Arguments HTTPException {A} status_code detail.
Arguments Unhandled {A}.

#[global] Instance Result_bind : MBind Result := fun A B k r =>
  match r with
  | Ok a => k a
  | HTTPException c d => HTTPException c d
  | Unhandled => Unhandled
  end.

(** [if not c: raise HTTPException(status_code, detail)]. *)
Definition guard (c : bool) (status_code : nat) (detail : string) : Result unit :=
  if c then Ok tt else HTTPException status_code detail.

(** A library call that may raise: its exception is not caught. *)
Definition uncaught {A} (o : option A) : Result A :=
  match o with Some a => Ok a | None => Unhandled end.

(** ** Numbers *)

(** The value an int64 operation keeps of an exact result. *)
Definition wrap64 (z : Z) : Z := ((z + 2 ^ 63) mod 2 ^ 64 - 2 ^ 63)%Z.

(** The float64 nearest to an int64. *)
Definition float_of_int64 (z : Z) : float :=
  if (z =? - 2 ^ 63)%Z then (-9223372036854775808)%float
  else if (z <? 0)%Z then PrimFloat.opp (PrimFloat.of_uint63 (Uint63.of_Z (- z)))
  else PrimFloat.of_uint63 (Uint63.of_Z z).

Definition float_of_bool (b : bool) : float := if b then 1%float else 0%float.

(** The order in which pandas sorts float64 values: that of [<], with
    [0.0] and [-0.0] equal, all NaN equal and below every number. *)
Definition float_cmp (a b : float) : comparison :=
  match PrimFloat.compare a b with
  | FEq => Eq
  | FLt => Lt
  | FGt => Gt
  | FNotComparable =>
      if PrimFloat.is_nan a then (if PrimFloat.is_nan b then Eq else Lt) else Gt
  end.

(** ** Timestamps *)

Record Timestamp : Type := {
  ts_year : nat;
  ts_month : nat;
  ts_day : nat;
  ts_second : nat   (* seconds since midnight *)
}.

#[global] Instance Timestamp_eq_dec : EqDecision Timestamp.
Proof. solve_decision. Defined.

Definition pad2 (n : nat) : string :=
  if (n <? 10)%nat then "0" +:+ pretty n else pretty n.

Definition pad4 (n : nat) : string :=
  if (n <? 10)%nat then "000" +:+ pretty n
  else if (n <? 100)%nat then "00" +:+ pretty n
  else if (n <? 1000)%nat then "0" +:+ pretty n
  else pretty n.

(** [ts.strftime('%Y-%m-%d')]. *)
Definition strftime_ymd (t : Timestamp) : string :=
  pad4 (ts_year t) +:+ "-" +:+ pad2 (ts_month t) +:+ "-" +:+ pad2 (ts_day t).

(** [ts.isoformat()] for a timestamp of whole seconds. *)
Definition isoformat (t : Timestamp) : string :=
  strftime_ymd t +:+ "T" +:+ pad2 (ts_second t / 3600) +:+ ":"
    +:+ pad2 (ts_second t / 60 mod 60) +:+ ":" +:+ pad2 (ts_second t mod 60).

Definition ts_compare (a b : Timestamp) : comparison :=
  match Nat.compare (ts_year a) (ts_year b) with
  | Eq => match Nat.compare (ts_month a) (ts_month b) with
          | Eq => match Nat.compare (ts_day a) (ts_day b) with
                  | Eq => Nat.compare (ts_second a) (ts_second b)
                  | c => c
                  end
          | c => c
          end
  | c => c
  end.

(** ** Python values, series and frames *)

(** A scalar as [tolist()] and [to_dict()] hand it to the response. *)
Inductive PyValue : Type :=
| PStr (s : string)
| PInt (z : Z)
| PFloat (x : float)
| PBool (b : bool)
| PTimestamp (t : Timestamp)
| PNaT.

(** A [dict] with its keys in insertion order. *)
Abbreviation PyDict := (list (string * PyValue)).

(** A cell of an object column read from a CSV: text, or the NaN of an
    empty field. *)
Inductive Obj : Type :=
| OStr (s : string)
| ONaN.

(** A column with its dtype. *)
Inductive Series : Type :=
| SInt64 (vs : list Z)
| SFloat64 (vs : list float)
| SBool (vs : list bool)
| SObject (vs : list Obj).

Definition of_obj (o : Obj) : PyValue :=
  match o with
  | OStr s => PStr s
  | ONaN => PFloat PrimFloat.nan
  end.

(** [series.tolist()]. *)
Definition values (s : Series) : list PyValue :=
  match s with
  | SInt64 vs => map PInt vs
  | SFloat64 vs => map PFloat vs
  | SBool vs => map PBool vs
  | SObject vs => map of_obj vs
  end.

(** The frame in the order of its columns. *)
Record DataFrame : Type := {
  df_data : list (string * Series)
}.

(** [df.columns]. *)
Definition df_columns (df : DataFrame) : list string := map fst (df_data df).

(** [df[name]]; [None] is the KeyError of a missing label. *)
Definition column (df : DataFrame) (name : string) : option Series :=
  snd <$> List.find (fun c => String.eqb (fst c) name) (df_data df).

(** The entries of [l] at which [mask] holds. *)
Definition filter_mask {A} (mask : list bool) (l : list A) : list A :=
  map snd (List.filter fst (combine mask l)).

(** [series[mask]]. *)
Definition series_filter (mask : list bool) (s : Series) : Series :=
  match s with
  | SInt64 vs => SInt64 (filter_mask mask vs)
  | SFloat64 vs => SFloat64 (filter_mask mask vs)
  | SBool vs => SBool (filter_mask mask vs)
  | SObject vs => SObject (filter_mask mask vs)
  end.

(** [df[mask]]: every column at the rows where the mask holds. *)
Definition df_filter (mask : list bool) (df : DataFrame) : DataFrame :=
  {| df_data := map (fun c => (fst c, series_filter mask (snd c))) (df_data df) |}.

(** [len(df[mask])]. *)
Definition mask_count (mask : list bool) : nat := length (List.filter id mask).

(** [tail(n)]: the last [n] entries, all of them when there are fewer. *)
Definition tail {A} (n : nat) (l : list A) : list A :=
  skipn (length l - n) l.

(** [series.tail(n)]. *)
Definition series_tail (n : nat) (s : Series) : Series :=
  match s with
  | SInt64 vs => SInt64 (tail n vs)
  | SFloat64 vs => SFloat64 (tail n vs)
  | SBool vs => SBool (tail n vs)
  | SObject vs => SObject (tail n vs)
  end.

(** ** Insight generation *)

Inductive Trend : Type :=
| StrongUpward
| ModestUpward
| SignificantDownward
| ModestDownward
| Stable.

(** [change_percent] of [generate_insight], on the two averages. *)
Definition change_percent (last_historical_avg last_forecast_avg : float) : float :=
  if PrimFloat.is_nan last_historical_avg || (last_historical_avg =? 0)%float then
    if (0 <? last_forecast_avg)%float then PrimFloat.infinity else 0%float
  else
    (((last_forecast_avg - last_historical_avg) / last_historical_avg) * 100)%float.

(** The branch of the [if] chain. *)
Definition trend_of (change_percent : float) : Trend :=
  if (15 <? change_percent)%float then StrongUpward
  else if (5 <? change_percent)%float then ModestUpward
  else if (change_percent <? -15)%float then SignificantDownward
  else if (change_percent <? -5)%float then ModestDownward
  else Stable.

Record ForecastRow : Type := {
  ds : Timestamp;
  yhat : float;
  yhat_lower : float;
  yhat_upper : float
}.

Section Insight.
(** [f"{x:.0f}"]. *)
Variable format_0f : float -> string.
(** [series.mean()]; [None] when it raises. *)
Variable series_mean : Series -> option float.

Definition trend_summary (change_percent : float) : string :=
  match trend_of change_percent with
  | StrongUpward =>
      "shows a strong upward trend. Sales are predicted to increase by approximately "
        +:+ format_0f change_percent +:+ "% over the next month."
  | ModestUpward =>
      "shows a modest upward trend, with a predicted increase of around "
        +:+ format_0f change_percent +:+ "%."
  | SignificantDownward =>
      "shows a significant downward trend, with sales predicted to decrease by "
        +:+ format_0f (PrimFloat.abs change_percent) +:+ "%."
  | ModestDownward =>
      "shows a modest downward trend, with a predicted decrease of around "
        +:+ format_0f (PrimFloat.abs change_percent) +:+ "%."
  | Stable => "is predicted to remain stable."
  end.

Definition recommendation (change_percent : float) : string :=
  match trend_of change_percent with
  | StrongUpward => "Consider increasing stock to meet expected demand."
  | ModestUpward => "Ensure stock levels are adequate."
  | SignificantDownward => "Consider running promotions or reducing inventory."
  | ModestDownward => "Monitor sales closely."
  | Stable => "Maintain current inventory and marketing strategies."
  end.

(** [generate_insight(product_id, historical_df, forecast_df)], on the
    [y] column of the one frame and the rows of the other; [None] when a
    mean raises. *)
Definition generate_insight (product_id : string)
    (historical_y : Series) (forecast_df : list ForecastRow) : option string :=
  last_historical_avg ← series_mean (series_tail 7 historical_y);
  last_forecast_avg ← series_mean (SFloat64 (tail 7 (map yhat forecast_df)));
  let cp := change_percent last_historical_avg last_forecast_avg in
  Some ("Product '" +:+ product_id +:+ "' " +:+ trend_summary cp +:+ " " +:+ recommendation cp).
End Insight.

(** ** Writing a response as JSON *)

(** The JSON writer of the framework refuses a float that is NaN or
    infinite. *)
Definition json_compliant (v : PyValue) : bool :=
  match v with
  | PFloat x => PrimFloat.is_finite x
  | _ => true
  end.

Definition dict_compliant (d : PyDict) : bool :=
  forallb (fun kv => json_compliant (snd kv)) d.

(** How the JSON writer writes a date-like value: a string as it is, a
    timestamp by its [isoformat()]. *)
Definition json_date (v : PyValue) : option string :=
  match v with
  | PStr s => Some s
  | PTimestamp t => Some (isoformat t)
  | PNaT => Some "NaT"
  | _ => None
  end.

(** ** Strings and paths *)

(** [s.endswith(suffix)]. *)
Definition endswith (s suffix : string) : bool :=
  let n := String.length s in
  let m := String.length suffix in
  (m <=? n)%nat && String.eqb (String.substring (n - m) m s) suffix.

(** [os.path.join(a, b)] of [posixpath]. *)
Definition os_path_join (a b : string) : string :=
  if String.prefix "/" b then b
  else if String.eqb a "" then b
  else if endswith a "/" then a +:+ b
  else a +:+ "/" +:+ b.

Definition UPLOAD_DIRECTORY : string := "./uploads".

(** [os.path.join(UPLOAD_DIRECTORY, f"user_{current_user.id}_{filename}")]. *)
Definition user_file_path (user_id : Z) (filename : string) : string :=
  os_path_join UPLOAD_DIRECTORY ("user_" +:+ pretty user_id +:+ "_" +:+ filename).

(** Whether [s.encode("latin-1")] succeeds: every character of the text is
    below U+0100, that is, a byte below 128 or one of the lead bytes 0xC2
    and 0xC3 with its continuation byte. *)
Fixpoint latin_1 (s : string) : bool :=
  match s with
  | EmptyString => true
  | String a s' =>
      let n := Ascii.nat_of_ascii a in
      if (n <? 128)%nat then latin_1 s'
      else if (n =? 194)%nat || (n =? 195)%nat then
        match s' with
        | String b s'' =>
            (128 <=? Ascii.nat_of_ascii b)%nat && (Ascii.nat_of_ascii b <? 192)%nat
              && latin_1 s''
        | EmptyString => false
        end
      else false
  end.

(** ** Series operations *)

(** Equality of two values as [unique] and [groupby] see it: [0.0] equals
    [-0.0] and NaN equals NaN. *)
Definition value_same (a b : PyValue) : bool :=
  match a, b with
  | PStr s, PStr t => String.eqb s t
  | PInt x, PInt y => Z.eqb x y
  | PFloat x, PFloat y => match float_cmp x y with Eq => true | _ => false end
  | PBool x, PBool y => Bool.eqb x y
  | PTimestamp x, PTimestamp y => bool_decide (x = y)
  | PNaT, PNaT => true
  | _, _ => false
  end.

(** [series.unique().tolist()]: the distinct values in order of first
    appearance. *)
Fixpoint unique (s : list PyValue) : list PyValue :=
  match s with
  | [] => []
  | c :: s' => c :: List.filter (fun d => negb (value_same c d)) (unique s')
  end.

(** [series == value] for a [str] value: a cell of text equals it when it
    is the same text; a missing value, a number or a boolean never does. *)
Definition eq_mask (s : Series) (v : string) : list bool :=
  match s with
  | SObject vs => map (fun o => match o with OStr t => String.eqb t v | ONaN => false end) vs
  | SInt64 vs => map (fun _ => false) vs
  | SFloat64 vs => map (fun _ => false) vs
  | SBool vs => map (fun _ => false) vs
  end.

Definition is_text (o : Obj) : bool :=
  match o with OStr _ => true | ONaN => false end.

(** [a * b] on two columns; [None] when it raises, or on a column of
    object dtype, which has no number to report. *)
Definition series_mul (a b : Series) : option Series :=
  match a, b with
  | SInt64 x, SInt64 y => Some (SInt64 (zip_with (fun u v => wrap64 (u * v)) x y))
  | SInt64 x, SFloat64 y =>
      Some (SFloat64 (zip_with (fun u v => (float_of_int64 u * v)%float) x y))
  | SFloat64 x, SInt64 y =>
      Some (SFloat64 (zip_with (fun u v => (u * float_of_int64 v)%float) x y))
  | SFloat64 x, SFloat64 y => Some (SFloat64 (zip_with PrimFloat.mul x y))
  | SBool x, SBool y => Some (SBool (zip_with andb x y))
  | SBool x, SInt64 y => Some (SInt64 (zip_with (fun (u : bool) (v : Z) => if u then v else 0%Z) x y))
  | SInt64 x, SBool y => Some (SInt64 (zip_with (fun (u : Z) (v : bool) => if v then u else 0%Z) x y))
  | SBool x, SFloat64 y =>
      Some (SFloat64 (zip_with (fun u v => (float_of_bool u * v)%float) x y))
  | SFloat64 x, SBool y =>
      Some (SFloat64 (zip_with (fun u v => (u * float_of_bool v)%float) x y))
  | SObject _, _ | _, SObject _ => None
  end.

(** The sum of an int64 group. *)
Definition int64_sum (vs : list Z) : Z :=
  fold_left (fun acc v => wrap64 (acc + v)) vs 0%Z.

(** ** Grouping *)

Section GroupBy.
Context {K V : Type} (cmp : K -> K -> comparison).

(** One step of the grouping: the groups are kept in ascending key order
    and [v] is appended to the group of [k], which is created when absent. *)
Fixpoint group_add (k : K) (v : V) (groups : list (K * list V)) : list (K * list V) :=
  match groups with
  | [] => [(k, [v])]
  | (k', vs) :: rest =>
      match cmp k k' with
      | Lt => (k, [v]) :: groups
      | Eq => (k', (vs ++ [v])%list) :: rest
      | Gt => (k', vs) :: group_add k v rest
      end
  end.

(** [df.groupby(key)[value]]: rows with a missing key are dropped, the
    groups come in ascending key order, each with its values in the order
    of the rows. *)
Definition groupby (rows : list (option K * V)) : list (K * list V) :=
  fold_left
    (fun groups row =>
       match row with
       | (Some k, v) => group_add k v groups
       | (None, _) => groups
       end)
    rows [].
End GroupBy.

Section NLargest.
Context {K V : Type} (vcmp : V -> V -> comparison).

(** Stable insertion into a list in descending order of value: [x] goes
    before the first entry whose value does not exceed its own. *)
Fixpoint insert_desc (x : K * V) (l : list (K * V)) : list (K * V) :=
  match l with
  | [] => [x]
  | y :: l' =>
      match vcmp (snd y) (snd x) with
      | Gt => y :: insert_desc x l'
      | _ => x :: l
      end
  end.

Definition sort_desc (l : list (K * V)) : list (K * V) :=
  foldr insert_desc [] l.

(** [series.nlargest(n)] with the default [keep='first']: the [n] largest
    values in descending order, equal values in their order in the series. *)
Definition nlargest (n : nat) (l : list (K * V)) : list (K * V) :=
  firstn n (sort_desc l).
End NLargest.

(** The sums of a grouped column, by the dtype of the result. *)
Inductive Sums (K : Type) : Type :=
| IntSums (l : list (K * Z))
| FloatSums (l : list (K * float)).
Arguments IntSums {K} l.
Arguments FloatSums {K} l.

(** Group keys read from a column: a missing value is no key. *)
Definition series_keys (s : Series) : list (option PyValue) :=
  match s with
  | SInt64 vs => map (fun z => Some (PInt z)) vs
  | SFloat64 vs => map (fun x => if PrimFloat.is_nan x then None else Some (PFloat x)) vs
  | SBool vs => map (fun b => Some (PBool b)) vs
  | SObject vs => map (fun o => match o with OStr s => Some (PStr s) | ONaN => None end) vs
  end.

(** The order of group keys: numbers by value, text by code point.  The
    keys of one column are of one kind. *)
Definition kind_of (v : PyValue) : nat :=
  match v with
  | PBool _ => 0
  | PInt _ => 1
  | PFloat _ => 2
  | PStr _ => 3
  | PTimestamp _ => 4
  | PNaT => 5
  end.

Definition key_compare (a b : PyValue) : comparison :=
  match a, b with
  | PInt x, PInt y => Z.compare x y
  | PFloat x, PFloat y => float_cmp x y
  | PStr s, PStr t => String.compare s t
  | PBool x, PBool y => Nat.compare (Nat.b2n x) (Nat.b2n y)
  | PTimestamp x, PTimestamp y => ts_compare x y
  | _, _ => Nat.compare (kind_of a) (kind_of b)
  end.

Definition nlargest_sums {K} (n : nat) (s : Sums K) : Sums K :=
  match s with
  | IntSums l => IntSums (nlargest Z.compare n l)
  | FloatSums l => FloatSums (nlargest float_cmp n l)
  end.

(** The entries of the sums as [to_dict(orient='records')] lists them
    after [reset_index()]. *)
Definition sums_records {K} (key_label : string) (key_value : K -> PyValue)
    (value_label : string) (s : Sums K) : list PyDict :=
  match s with
  | IntSums l =>
      map (fun g : K * Z => [(key_label, key_value (fst g)); (value_label, PInt (snd g))]) l
  | FloatSums l =>
      map (fun g : K * float =>
             [(key_label, key_value (fst g)); (value_label, PFloat (snd g))]) l
  end.

(** ** The libraries behind the handlers *)

(** What one forecasting run is given: the constructor argument of the
    model, the two columns of the frame it is fitted on and the horizon
    asked of it. *)
Record ProphetCall : Type := {
  daily_seasonality : bool;
  history_ds : list (option Timestamp);
  history_y : Series;
  periods : nat
}.

Class Libraries : Type := {
  (** [pd.read_csv] on the content of a file; [inl] is [str(e)] of the
      exception it raises. *)
  read_csv : string -> string + DataFrame;
  (** [pd.to_datetime] on a column: [None] when it raises, else a
      timestamp or NaT for every entry. *)
  to_datetime : Series -> option (list (option Timestamp));
  (** [str(list(columns))]. *)
  list_repr : list string -> string;
  (** [str(e)] of the TypeError that comparing text with a number raises. *)
  type_error_lt : string;
  (** [f"{x:.0f}"]. *)
  format_0f : float -> string;
  (** The text [to_csv] writes for a float that is not NaN. *)
  float_repr : float -> string;
  (** [series.mean()]; [None] when it raises. *)
  series_mean : Series -> option float;
  (** The sum of a float64 group of [groupby(...).sum()]. *)
  float_sum : list float -> float;
  (** [Prophet(daily_seasonality=...)], [fit], [make_future_dataframe] and
      [predict] in one step; [None] when any of them raises. *)
  prophet_forecast : ProphetCall -> option (list ForecastRow);
  (** Whether [open(path, "wb")] can create a file that does not exist:
      not under a directory that is missing, as for a file name that holds
      a slash, nor under a name the file system refuses. *)
  os_creatable : string -> bool;
  (** Whether the HTTP server in front of the application sends a header
      value: not one that holds a line break or another control character. *)
  header_sendable : string -> bool
}.

Abbreviation Storage := (gmap string string).

Section Handlers.
Context `{Libraries}.

(** [os.path.exists(file_path)]. *)
Definition file_exists (fs : Storage) (file_path : string) : bool :=
  bool_decide (is_Some (fs !! file_path)).

(** *** Upload *)

Record UploadResponse : Type := {
  up_message : string;
  up_filename : string;
  up_products : list PyValue
}.

Definition required_columns : list string :=
  ["date"; "product_id"; "units_sold"; "price"].

(** [required.issubset(columns)]. *)
Definition issubset (required columns : list string) : bool :=
  forallb (fun c => existsb (String.eqb c) columns) required.

(** [series.lt(0).any()]; [inl] is the message of the TypeError raised on a
    cell of text.  Neither a missing value nor a boolean is less than
    zero. *)
Definition lt0_any (s : Series) : string + bool :=
  match s with
  | SInt64 vs => inr (existsb (fun z => (z <? 0)%Z) vs)
  | SFloat64 vs => inr (existsb (fun x => (x <? 0)%float) vs)
  | SBool vs => inr false
  | SObject vs => if existsb is_text vs then inl type_error_lt else inr false
  end.

Definition negative_values_message : string :=
  "'units_sold' and 'price' cannot contain negative values.".

(** The body of the [try] block of [upload_csv]: the frame it binds, or
    [str(e)] of the exception raised. *)
Definition validate_upload (fs : Storage) (file_path : string) : string + DataFrame :=
  match fs !! file_path with
  | None => inl ("[Errno 2] No such file or directory: '" +:+ file_path +:+ "'")
  | Some content =>
      match read_csv content with
      | inl e => inl e
      | inr df =>
          if negb (issubset required_columns (df_columns df)) then
            inl ("Missing required columns. Found: " +:+ list_repr (df_columns df))
          else
            match column df "units_sold", column df "price" with
            | Some units_sold, Some price =>
                match lt0_any units_sold with
                | inl e => inl e
                | inr true => inl negative_values_message
                | inr false =>
                    match lt0_any price with
                    | inl e => inl e
                    | inr true => inl negative_values_message
                    | inr false => inr df
                    end
                end
            | _, _ => inl "KeyError"
            end
      end
  end.

(** [upload_csv]: the storage after the request, and the answer.  The file
    is opened for writing outside the [try] block: when that raises, nothing
    is stored.  The list of products is written as JSON after the handler
    has returned: when that raises, the file stays. *)
Definition upload_csv (fs : Storage) (user_id : Z) (filename content : string)
    : Storage * Result UploadResponse :=
  if negb (endswith filename ".csv") then
    (fs, HTTPException 400 "Invalid file type. Please upload a CSV file.")
  else
    let file_path := user_file_path user_id filename in
    if negb (file_exists fs file_path || os_creatable file_path) then (fs, Unhandled)
    else
      let fs := <[file_path := content]> fs in
      match validate_upload fs file_path with
      | inl e =>
          (delete file_path fs, HTTPException 400 ("CSV Validation Error: " +:+ e))
      | inr df =>
          match column df "product_id" with
          | Some product_id =>
              let products := unique (values product_id) in
              if forallb json_compliant products then
                (fs, Ok {| up_message := "CSV validated and saved successfully!";
                           up_filename := filename;
                           up_products := products |})
              else (fs, Unhandled)
          | None => (fs, Unhandled)
          end
      end.

(** [pd.read_csv(file_path)] outside a [try]. *)
Definition load_csv (fs : Storage) (file_path : string) : Result DataFrame :=
  match fs !! file_path with
  | None => Unhandled
  | Some content =>
      match read_csv content with
      | inl _ => Unhandled
      | inr df => Ok df
      end
  end.

(** *** Historical analysis *)

Record AnalysisResponse : Type := {
  revenue_over_time : list PyDict;
  top_products : list PyDict
}.

(** [df.groupby(key)[value].sum()]: the sum of every group, by the dtype
    of the column; [None] on a column of object dtype. *)
Definition groupby_sum {K} (cmp : K -> K -> comparison) (keys : list (option K))
    (s : Series) : option (Sums K) :=
  match s with
  | SInt64 vs =>
      Some (IntSums (map (fun g => (fst g, int64_sum (snd g)))
                       (groupby cmp (combine keys vs))))
  | SFloat64 vs =>
      Some (FloatSums (map (fun g => (fst g, float_sum (snd g)))
                         (groupby cmp (combine keys vs))))
  | SBool vs =>
      Some (IntSums (map (fun g => (fst g, int64_sum (map Z.b2z (snd g))))
                       (groupby cmp (combine keys vs))))
  | SObject _ => None
  end.

Definition analysis_compliant (r : AnalysisResponse) : bool :=
  forallb dict_compliant (revenue_over_time r) && forallb dict_compliant (top_products r).

(** [get_historical_analysis].  On a [units_sold] column of object dtype
    every path raises, at [nlargest] at the latest. *)
Definition get_historical_analysis (fs : Storage) (user_id : Z) (filename : string)
    : Result AnalysisResponse :=
  let file_path := user_file_path user_id filename in
  _ ← guard (file_exists fs file_path) 404 "File not found. Please upload it again.";
  df ← load_csv fs file_path;
  date ← uncaught (column df "date");
  dates ← uncaught (to_datetime date);
  units_sold ← uncaught (column df "units_sold");
  price ← uncaught (column df "price");
  revenue ← uncaught (series_mul units_sold price);
  revenue_over_time ← uncaught (groupby_sum ts_compare dates revenue);
  product_id ← uncaught (column df "product_id");
  totals ← uncaught (groupby_sum key_compare (series_keys product_id) units_sold);
  let response :=
    {| revenue_over_time :=
         sums_records "date" (fun d => PStr (strftime_ymd d)) "revenue" revenue_over_time;
       top_products :=
         sums_records "product_id" id "units_sold" (nlargest_sums 5 totals) |} in
  if analysis_compliant response then Ok response else Unhandled.

(** *** Forecast *)

Record ForecastResponse : Type := {
  fc_product_id : string;
  fc_insight : string;
  historical_data : list PyDict;
  forecast_data : list PyDict
}.

Definition of_date (d : option Timestamp) : PyValue :=
  match d with
  | Some t => PTimestamp t
  | None => PNaT
  end.

Definition forecast_record (r : ForecastRow) : PyDict :=
  [("ds", PTimestamp (ds r)); ("yhat", PFloat (yhat r));
   ("yhat_lower", PFloat (yhat_lower r)); ("yhat_upper", PFloat (yhat_upper r))].

Definition history_record (r : option Timestamp * PyValue) : PyDict :=
  [("ds", of_date (fst r)); ("y", snd r)].

Definition forecast_compliant (r : ForecastResponse) : bool :=
  forallb dict_compliant (historical_data r) && forallb dict_compliant (forecast_data r).

Definition get_forecast (fs : Storage) (user_id : Z) (product_id filename : string)
    : Result ForecastResponse :=
  let file_path := user_file_path user_id filename in
  _ ← guard (file_exists fs file_path) 404 "File not found. Please upload it again.";
  df ← load_csv fs file_path;
  ids ← uncaught (column df "product_id");
  let mask := eq_mask ids product_id in
  let product_history := df_filter mask df in
  _ ← guard (negb (Nat.eqb (mask_count mask) 0)) 404
        ("Product ID '" +:+ product_id +:+ "' not found.");
  _ ← guard (negb (mask_count mask <? 30)%nat) 400
        "Not enough data. A minimum of 30 data points is required.";
  date ← uncaught (column product_history "date");
  units_sold ← uncaught (column product_history "units_sold");
  dates ← uncaught (to_datetime date);
  forecast ← uncaught (prophet_forecast
                {| daily_seasonality := true; history_ds := dates;
                   history_y := units_sold; periods := 30 |});
  insight_text ← uncaught (generate_insight format_0f series_mean product_id
                             units_sold forecast);
  let response :=
    {| fc_product_id := product_id;
       fc_insight := insight_text;
       historical_data := map history_record (combine dates (values units_sold));
       forecast_data := map forecast_record (tail 30 forecast) |} in
  if forecast_compliant response then Ok response else Unhandled.

(** *** Export *)

Record StreamingResponse : Type := {
  body : string;
  media_type : string;
  headers : list (string * string)
}.

Definition newline : string := String (Ascii.ascii_of_nat 10) "".

(** One number of the CSV text: NaN is written as nothing. *)
Definition csv_float (x : float) : string :=
  if PrimFloat.is_nan x then "" else float_repr x.

(** A row of [export_df] after the date column is formatted. *)
Definition export_row (r : ForecastRow) : list string :=
  [strftime_ymd (ds r); csv_float (yhat r); csv_float (yhat_lower r); csv_float (yhat_upper r)].

Definition export_header : list string :=
  ["date"; "predicted_sales"; "predicted_sales_lower_bound"; "predicted_sales_upper_bound"].

Definition csv_line (fields : list string) : string :=
  String.concat "," fields +:+ newline.

(** [export_df.to_csv(stream, index=False)]: the header line and one line a
    row.  No field of this frame holds a delimiter, so none is quoted. *)
Definition to_csv (rows : list (list string)) : string :=
  String.concat "" (map csv_line (export_header :: rows)).

(** [export_forecast_csv].  The response takes its headers in latin-1:
    building it raises on a product id that has no latin-1 encoding.  The
    response built, the server has to send its headers. *)
Definition export_forecast_csv (fs : Storage) (user_id : Z) (product_id filename : string)
    : Result StreamingResponse :=
  let file_path := user_file_path user_id filename in
  _ ← guard (file_exists fs file_path) 404 "File not found. Please upload it again.";
  df ← load_csv fs file_path;
  ids ← uncaught (column df "product_id");
  let mask := eq_mask ids product_id in
  let product_history := df_filter mask df in
  _ ← guard (negb (Nat.eqb (mask_count mask) 0)) 404
        ("Product ID '" +:+ product_id +:+ "' not found.");
  _ ← guard (negb (mask_count mask <? 30)%nat) 400 "Not enough data to export.";
  date ← uncaught (column product_history "date");
  units_sold ← uncaught (column product_history "units_sold");
  dates ← uncaught (to_datetime date);
  forecast ← uncaught (prophet_forecast
                {| daily_seasonality := true; history_ds := dates;
                   history_y := units_sold; periods := 30 |});
  let disposition := "attachment; filename=forecast_" +:+ product_id +:+ ".csv" in
  if latin_1 product_id && header_sendable disposition then
    Ok {| body := to_csv (map export_row forecast);
          media_type := "text/csv";
          headers := [("Content-Disposition", disposition)] |}
  else Unhandled.

End Handlers.

(** ** Accounts and tokens

    The handlers of [auth.py] and the account endpoints of [main.py].  The
    password hashing, the token codec and the key assignment of the
    database are library entry points and fields of [AuthLibraries]; the
    clock and the randomness of the hashing are arguments. *)

(** An answer of an account handler: as [Result], with the headers that
    these handlers attach to an HTTP error. *)
Inductive Outcome (A : Type) : Type :=
| Returned (a : A)
| Raised (status_code : nat) (detail : string) (headers : list (string * string))
| Uncaught.
Arguments Returned {A} a.
Arguments Raised {A} status_code detail headers.
Arguments Uncaught {A}.

(** Modelled from the spec: the table of registered users declared in
    [models.py], which is not among the sources.  A row has the columns
    the handlers read and write: the key, the email, the hashed password
    and the two names; the table lists its rows in the order of a query. *)
Record User : Type := {
  u_id : Z;
  u_email : string;
  u_hashed_password : string;
  u_first_name : string;
  u_last_name : string
}.

(** [schemas.UserCreate]. *)
Record UserCreate : Type := {
  uc_email : string;
  uc_password : string;
  uc_first_name : string;
  uc_last_name : string
}.

(** [schemas.Token], as the login handler fills it. *)
Record Token : Type := {
  access_token : string;
  token_type : string
}.

(** A value of a token payload. *)
Inductive ClaimValue : Type :=
| VStr (s : string)
| VInt (z : Z)
| VNull.

Abbreviation Claims := (gmap string ClaimValue).

Class AuthLibraries : Type := {
  (** [pwd_context.hash(password)], given the randomness it draws. *)
  pwd_context_hash : string -> string -> string;
  (** [pwd_context.verify(plain, hashed)]; [None] when it raises. *)
  pwd_context_verify : string -> string -> option bool;
  (** [jwt.encode(claims, SECRET_KEY, algorithm=ALGORITHM)]. *)
  jwt_encode : Claims -> string;
  (** [jwt.decode(token, SECRET_KEY, algorithms=[ALGORITHM])] at a time of
      the clock, in seconds; [None] when it raises JWTError. *)
  jwt_decode : Z -> string -> option Claims;
  (** The key the database gives to a row added to the table. *)
  next_id : list User -> Z
}.

Definition ACCESS_TOKEN_EXPIRE_MINUTES : Z := 30.

Section Accounts.
Context `{AuthLibraries}.

(** [create_access_token(data)] at the time [now] of the clock. *)
Definition create_access_token (now : Z) (data : Claims) : string :=
  let to_encode := data in
  let expire := (now + ACCESS_TOKEN_EXPIRE_MINUTES * 60)%Z in
  jwt_encode (<["exp" := VInt expire]> to_encode).

(** [db.query(models.User).filter(models.User.email == email).first()]. *)
Definition user_by_email (db : list User) (email : string) : option User :=
  List.find (fun u => String.eqb (u_email u) email) db.

Definition credentials_exception {A} : Outcome A :=
  Raised 401 "Could not validate credentials" [("WWW-Authenticate", "Bearer")].

(** [get_current_user(token, db)].  A [sub] that is no text fails the
    validation of [TokenData], which the [except JWTError] does not catch. *)
Definition get_current_user (now : Z) (token : string) (db : list User) : Outcome User :=
  match jwt_decode now token with
  | None => credentials_exception
  | Some payload =>
      match payload !! "sub" with
      | None | Some VNull => credentials_exception
      | Some (VInt _) => Uncaught
      | Some (VStr email) =>
          match user_by_email db email with
          | None => credentials_exception
          | Some user => Returned user
          end
      end
  end.

(** [register_user]: the table after the request, and the answer. *)
Definition register_user (salt : string) (user : UserCreate) (db : list User)
    : list User * Outcome User :=
  match user_by_email db (uc_email user) with
  | Some _ => (db, Raised 400 "Email already registered" [])
  | None =>
      let hashed_password := pwd_context_hash salt (uc_password user) in
      let new_user := {| u_id := next_id db;
                         u_email := uc_email user;
                         u_hashed_password := hashed_password;
                         u_first_name := uc_first_name user;
                         u_last_name := uc_last_name user |} in
      ((db ++ [new_user])%list, Returned new_user)
  end.

(** [login_for_access_token] on the [username] and [password] of the form. *)
Definition login_for_access_token (now : Z) (username password : string) (db : list User)
    : Outcome Token :=
  let incorrect :=
    Raised 401 "Incorrect email or password" [("WWW-Authenticate", "Bearer")] in
  match user_by_email db username with
  | None => incorrect
  | Some user =>
      match pwd_context_verify password (u_hashed_password user) with
      | None => Uncaught
      | Some false => incorrect
      | Some true =>
          Returned {| access_token :=
                        create_access_token now {[ "sub" := VStr (u_email user) ]};
                      token_type := "bearer" |}
      end
  end.

(** [auth_google] on the outcome of the exchange with the provider: [None]
    when the exchange raises, else the [userinfo] entry of the token, if
    any.  The answer is the URL of the redirect. *)
Definition auth_google (now : Z) (exchange : option (option (gmap string string)))
    (db : list User) : list User * Outcome string :=
  match exchange with
  | None => (db, Raised 401 "Could not authorize Google account." [])
  | Some userinfo =>
      match userinfo with
      | None => (db, Raised 400 "Could not retrieve user info from Google." [])
      | Some user_data =>
          if bool_decide (user_data = ∅) then
            (db, Raised 400 "Could not retrieve user info from Google." [])
          else
            match user_data !! "email" with
            | None => (db, Uncaught)
            | Some user_email =>
                let '(db, db_user) :=
                  match user_by_email db user_email with
                  | Some db_user => (db, db_user)
                  | None =>
                      let new_user :=
                        {| u_id := next_id db;
                           u_email := user_email;
                           u_hashed_password := "";
                           u_first_name := default "" (user_data !! "given_name");
                           u_last_name := default "" (user_data !! "family_name") |} in
                      ((db ++ [new_user])%list, new_user)
                  end in
                let access_token :=
                  create_access_token now {[ "sub" := VStr (u_email db_user) ]} in
                (db, Returned ("http://localhost:5173/auth/callback?token=" +:+ access_token))
            end
      end
  end.
End Accounts.

(** * What the specification says, in terms of the model *)

(** ** Orders *)

(** A comparison function that is a total order up to the equivalence of
    comparing equal. *)
Record CmpLaws {K : Type} (cmp : K -> K -> comparison) : Prop := {
  cmp_antisym : forall a b, cmp b a = CompOpp (cmp a b);
  cmp_trans_lt : forall a b c, cmp a b = Lt -> cmp b c = Lt -> cmp a c = Lt;
  cmp_eq_compat : forall a b c, cmp a b = Eq -> cmp a c = cmp b c
}.

(** ** Windows *)

(** The last [n] entries of a sequence, counted from its end. *)
Definition last_rows {A} (n : nat) (l : list A) : list A :=
  rev (firstn n (rev l)).


(** ** The insight *)

(** [x > c] and [x < c] on floats; both fail on NaN. *)
Definition above (x c : float) : Prop := (c <? x)%float = true.


(** An average that is NaN or zero. *)
Definition undefined_or_zero (h : float) : Prop :=
  PrimFloat.is_nan h = true \/ (h =? 0)%float = true.


(** The message of each branch: its sentence on the trend, with the
    percentage rounded to a whole number and without its sign in the
    downward branches, and its recommendation. *)
Definition insight_text (format_0f : float -> string) (product_id : string)
    (cp : float) (t : Trend) : string :=
  match t with
  | StrongUpward =>
      "Product '" +:+ product_id
        +:+ "' shows a strong upward trend. Sales are predicted to increase by approximately "
        +:+ format_0f cp
        +:+ "% over the next month. Consider increasing stock to meet expected demand."
  | ModestUpward =>
      "Product '" +:+ product_id
        +:+ "' shows a modest upward trend, with a predicted increase of around "
        +:+ format_0f cp +:+ "%. Ensure stock levels are adequate."
  | SignificantDownward =>
      "Product '" +:+ product_id
        +:+ "' shows a significant downward trend, with sales predicted to decrease by "
        +:+ format_0f (PrimFloat.abs cp)
        +:+ "%. Consider running promotions or reducing inventory."
  | ModestDownward =>
      "Product '" +:+ product_id
        +:+ "' shows a modest downward trend, with a predicted decrease of around "
        +:+ format_0f (PrimFloat.abs cp) +:+ "%. Monitor sales closely."
  | Stable =>
      "Product '" +:+ product_id
        +:+ "' is predicted to remain stable. Maintain current inventory and marketing strategies."
  end.

(** ** Uploads *)

Definition has_required_columns (df : DataFrame) : Prop :=
  forall c, c ∈ ["date"; "product_id"; "units_sold"; "price"] -> c ∈ df_columns df.

(** A number below zero. *)
Definition negative (v : PyValue) : Prop :=
  match v with
  | PInt z => (z < 0)%Z
  | PFloat x => (x <? 0)%float = true
  | _ => False
  end.

(** The test for it. *)
Definition negative_b (v : PyValue) : bool :=
  match v with
  | PInt z => (z <? 0)%Z
  | PFloat x => (x <? 0)%float
  | _ => false
  end.

(** Whether a series holds text. *)
Definition has_text (s : Series) : bool :=
  match s with
  | SObject vs => existsb is_text vs
  | _ => false
  end.

Definition no_negative_value (s : Series) : Prop :=
  forall v, v ∈ values s -> ~ negative v.

Definition has_negative_value (s : Series) : Prop :=
  exists v, v ∈ values s /\ negative v.

(** A column that holds no text. *)
Definition numeric_column (s : Series) : Prop :=
  forall t, PStr t ∉ values s.



(** [products] lists the distinct values of [s], each once. *)
Definition distinct_values (s products : list PyValue) : Prop :=
  (forall c, c ∈ products -> c ∈ s)
  /\ (forall c, c ∈ s -> exists c', c' ∈ products /\ value_same c c' = true)
  /\ ForallOrdPairs (fun c d => value_same c d = false) products.

Section UploadSpec.
Context `{Libraries}.

(** A file content that the upload validator accepts. *)
Definition valid_dataset (content : string) : Prop :=
  exists df units price,
    read_csv content = inr df
    /\ has_required_columns df
    /\ column df "units_sold" = Some units
    /\ column df "price" = Some price
    /\ (numeric_column units /\ no_negative_value units)
    /\ (numeric_column price /\ no_negative_value price).

End UploadSpec.

(** ** The rows of a product *)

(** The positions, in the order of the file, of the rows whose
    [product_id] is the text asked for. *)
Definition matching_indices (ids : Series) (product_id : string) : list nat :=
  List.filter
    (fun i => match values ids !! i with
              | Some (PStr t) => String.eqb t product_id
              | _ => false
              end)
    (seq 0 (length (values ids))).

(** The entries of a column at the given positions. *)
Definition at_indices {A} (idx : list nat) (l : list A) : list A :=
  omap (fun i => l !! i) idx.

Definition series_at (idx : list nat) (s : Series) : Series :=
  match s with
  | SInt64 vs => SInt64 (at_indices idx vs)
  | SFloat64 vs => SFloat64 (at_indices idx vs)
  | SBool vs => SBool (at_indices idx vs)
  | SObject vs => SObject (at_indices idx vs)
  end.



(** ** Grouped sums *)

Section GroupSpec.
Context {K V : Type} (cmp : K -> K -> comparison).

(** The values, in the order of the rows, of the rows whose key compares
    equal to [k]. *)
Definition values_of (k : K) (rows : list (option K * V)) : list V :=
  omap (fun row =>
          match fst row with
          | Some k' => match cmp k' k with Eq => Some (snd row) | _ => None end
          | None => None
          end) rows.

Definition key_lt {W} (a b : K * W) : Prop := cmp (fst a) (fst b) = Lt.

(** [groups] is the grouping of [rows]: ascending in the key, one group
    for every key that occurs, each with the values of its rows. *)
Record grouped (rows : list (option K * V)) (groups : list (K * list V)) : Prop := {
  grouped_sorted : StronglySorted key_lt groups;
  grouped_values : forall k vs, (k, vs) ∈ groups ->
    (exists v, (Some k, v) ∈ rows) /\ vs = values_of k rows;
  grouped_complete : forall k v, (Some k, v) ∈ rows ->
    exists k' vs, (k', vs) ∈ groups /\ cmp k k' = Eq
}.


End GroupSpec.


Section RankSpec.
Context {K V : Type} (kcmp : K -> K -> comparison) (vcmp : V -> V -> comparison).

End RankSpec.





Section Totals.
Context `{Libraries}.








End Totals.


(** ** Forecasts *)

Definition date_le (a b : option Timestamp) : Prop :=
  match a, b with
  | Some x, Some y => ts_compare x y <> Gt
  | _, _ => False
  end.

(** A history ordered by date ascending. *)
Definition dates_ascending (dates : list (option Timestamp)) : Prop :=
  Sorted date_le dates.

Section ForecastSpec.
Context `{Libraries}.

(** The forecasting run both handlers ask for on a history. *)
Definition forecast_call (dates : list (option Timestamp)) (units : Series) : ProphetCall :=
  {| daily_seasonality := true; history_ds := dates; history_y := units; periods := 30 |}.

(** The history both handlers forecast from, for a product with thirty
    rows or more in a stored file: the dates and the [units_sold] of the
    rows of the product, in the order of the file, the dates parsed. *)
Definition forecast_history (fs : Storage) (user_id : Z) (filename product_id : string)
    (dates : list (option Timestamp)) (units : Series) : Prop :=
  exists content df ids date units_sold,
    fs !! user_file_path user_id filename = Some content
    /\ read_csv content = inr df
    /\ column df "product_id" = Some ids
    /\ column df "date" = Some date
    /\ column df "units_sold" = Some units_sold
    /\ (30 <= length (matching_indices ids product_id))%nat
    /\ to_datetime (series_at (matching_indices ids product_id) date) = Some dates
    /\ units = series_at (matching_indices ids product_id) units_sold.

(** The steps of both handlers between the two checks and the answer: the
    two columns at the rows [idx], the dates parsed, the forecasting run. *)
Definition forecast_steps {A} (df : DataFrame) (idx : list nat)
    (answer : list (option Timestamp) -> Series -> list ForecastRow -> Result A)
    : Result A :=
  date ← uncaught (series_at idx <$> column df "date");
  units_sold ← uncaught (series_at idx <$> column df "units_sold");
  dates ← uncaught (to_datetime date);
  forecast ← uncaught (prophet_forecast (forecast_call dates units_sold));
  answer dates units_sold forecast.

(** The (date, units_sold) pairs of a run. *)
Definition history (call : ProphetCall) : list (option Timestamp * PyValue) :=
  combine (history_ds call) (values (history_y call)).

Definition forecast_response (product_id insight : string)
    (dates : list (option Timestamp)) (units : Series) (forecast : list ForecastRow)
    : ForecastResponse :=
  {| fc_product_id := product_id;
     fc_insight := insight;
     historical_data := map history_record (combine dates (values units));
     forecast_data := map forecast_record (last_rows 30 forecast) |}.

Definition export_response (product_id : string) (forecast : list ForecastRow)
    : StreamingResponse :=
  {| body := to_csv (map export_row forecast);
     media_type := "text/csv";
     headers := [("Content-Disposition",
                  "attachment; filename=forecast_" +:+ product_id +:+ ".csv")] |}.

(** What the forecast handler answers once the forecasting run has given
    [forecast]: the response, unless a mean raises or a number of the
    response is NaN or infinite. *)
Definition forecast_answer (product_id : string)
    (dates : list (option Timestamp)) (units : Series) (forecast : list ForecastRow)
    : Result ForecastResponse :=
  match generate_insight format_0f series_mean product_id units forecast with
  | None => Unhandled
  | Some insight =>
      let response := forecast_response product_id insight dates units forecast in
      if forecast_compliant response then Ok response else Unhandled
  end.

(** The header that offers the export as a file. *)
Definition content_disposition (product_id : string) : string :=
  "attachment; filename=forecast_" +:+ product_id +:+ ".csv".

(** What the export handler answers once the forecasting run has given
    [forecast]: the CSV, unless the product id has no latin-1 encoding or
    the server does not send the header made of it. *)
Definition export_answer (product_id : string) (forecast : list ForecastRow)
    : Result StreamingResponse :=
  if latin_1 product_id && header_sendable (content_disposition product_id) then
    Ok (export_response product_id forecast)
  else Unhandled.
End ForecastSpec.

(** [d[key]] of a record. *)
Definition dict_get (key : string) (d : PyDict) : option PyValue :=
  snd <$> List.find (fun kv => String.eqb (fst kv) key) d.

(** The date of a record of the response as the client reads it. *)
Definition written_date (d : PyDict) : option string :=
  dict_get "ds" d ≫= json_date.

(** ** Reading an exported CSV back *)

Fixpoint split_on (sep : ascii) (s : string) : list string :=
  match s with
  | EmptyString => [EmptyString]
  | String a s' =>
      if Ascii.eqb a sep then EmptyString :: split_on sep s'
      else
        match split_on sep s' with
        | f :: fs => String a f :: fs
        | [] => [String a EmptyString]
        end
  end.

Fixpoint has_char (c : ascii) (s : string) : bool :=
  match s with
  | EmptyString => false
  | String a s' => Ascii.eqb a c || has_char c s'
  end.

Definition linefeed : ascii := ascii_of_nat 10.

Definition digit_of (a : Ascii.ascii) : option nat :=
  let n := Ascii.nat_of_ascii a in
  if ((48 <=? n) && (n <=? 57))%nat then Some (n - 48)%nat else None.

Fixpoint digits_go (s : string) (acc : nat) : option nat :=
  match s with
  | EmptyString => Some acc
  | String a s' => d ← digit_of a; digits_go s' (acc * 10 + d)%nat
  end.

(** A non-empty run of decimal digits. *)
Definition parse_digits (s : string) : option nat :=
  match s with
  | EmptyString => None
  | _ => digits_go s 0%nat
  end.

(** The year, month and day of a text of the form [YYYY-MM-DD]. *)
Definition parse_ymd (s : string) : option (nat * nat * nat) :=
  if negb (Nat.eqb (String.length s) 10) then None
  else if negb (String.eqb (String.substring 4 1 s) "-") then None
  else if negb (String.eqb (String.substring 7 1 s) "-") then None
  else
    y ← parse_digits (String.substring 0 4 s);
    m ← parse_digits (String.substring 5 2 s);
    d ← parse_digits (String.substring 8 2 s);
    Some (y, m, d).


Section Reparse.
(** The reader's conversion of the text of a number. *)
Variable float_parse : string -> option float.





End Reparse.







(** ** The order of floats, on their specification

    A float by its class, exponent and mantissa: NaN lowest, then the
    negative infinity, the negative numbers, the zeros, the positive
    numbers and the positive infinity. *)
Definition sf_rank (x : spec_float) : Z * (Z * Z) :=
  match x with
  | S754_nan => (-3, (0, 0))
  | S754_infinity true => (-2, (0, 0))
  | S754_finite true m e => (-1, (- e, - Z.pos m))
  | S754_zero _ => (0, (0, 0))
  | S754_finite false m e => (1, (e, Z.pos m))
  | S754_infinity false => (2, (0, 0))
  end%Z.

Definition lex3 (a b : Z * (Z * Z)) : comparison :=
  match Z.compare (fst a) (fst b) with
  | Eq => match Z.compare (fst (snd a)) (fst (snd b)) with
          | Eq => Z.compare (snd (snd a)) (snd (snd b))
          | c => c
          end
  | c => c
  end.

(** ** Stored datasets

    Notions for the properties of the store that go beyond the
    specification. *)

Section StoreSpec.
Context `{Libraries}.

(** Every file of the upload directory is a valid dataset. *)
Definition valid_storage (fs : Storage) : Prop :=
  forall path content, fs !! path = Some content -> valid_dataset content.

(** A file that is stored has a path under which the directory can
    create a file. *)
Definition path_in_directory (fs : Storage) (path : string) : Prop :=
  is_Some (fs !! path) -> os_creatable path = true.
End StoreSpec.

(** ** Accounts: the properties of the token codec that the handlers rely on *)

Section AccountSpec.
Context `{AuthLibraries}.

(** At the time [t] the codec reads the token issued at [now] for [email]
    back to a payload with that subject. *)
Definition codec_accepts (now t : Z) (email : string) : Prop :=
  exists payload,
    jwt_decode t (create_access_token now {[ "sub" := VStr email ]}) = Some payload
    /\ payload !! "sub" = Some (VStr email).

(** The emails of the table. *)
Definition emails (db : list User) : list string := u_email <$> db.

(** The answer to a password login of a user whose stored hash is [hashed]. *)
Definition login_answer (now : Z) (email password hashed : string) : Outcome Token :=
  match pwd_context_verify password hashed with
  | None => Uncaught
  | Some false =>
      Raised 401 "Incorrect email or password" [("WWW-Authenticate", "Bearer")]
  | Some true =>
      Returned {| access_token := create_access_token now {[ "sub" := VStr email ]};
                  token_type := "bearer" |}
  end.

(** An answer that carries no value. *)
Definition refused {A} (r : Outcome A) : Prop :=
  match r with Returned _ => False | _ => True end.
End AccountSpec.

(** ** Reference instances of the libraries

    The examples below run the handlers on concrete files.  They need some
    instance of every library entry point: a reader that knows a given list
    of files, a parser of [YYYY-MM-DD] dates with an optional time of day,
    decimal text for floats, sums and means that add from left to right, a
    flat upload directory, and a stand-in forecaster that predicts one
    level for every date. *)

Module Examples.

(** *** Floats as text *)

(** The exact value of a finite float as a fraction. *)
Definition float_fraction (x : float) : option (Z * Z) :=
  match Prim2SF x with
  | S754_zero _ => Some (0, 1)%Z
  | S754_finite s m e =>
      let n := if s then Z.neg m else Z.pos m in
      if (0 <=? e)%Z then Some (n * 2 ^ e, 1)%Z else Some (n, 2 ^ (- e))%Z
  | _ => None
  end.

Fixpoint frac_digits (fuel : nat) (r d : Z) : string :=
  match fuel with
  | O => ""
  | S fuel' =>
      let x := (r * 10)%Z in
      pretty (x / d)%Z +:+
        (if (x mod d =? 0)%Z then "" else frac_digits fuel' (x mod d)%Z d)
  end.

(** Decimal text of a float with a short decimal expansion, as [repr]
    writes it: [35.0], [-12.5]. *)
Definition decimal_repr (x : float) : string :=
  match float_fraction x with
  | Some (n, d) =>
      (if PrimFloat.get_sign x then "-" else "") +:+ pretty (Z.abs n / d)%Z +:+ "."
        +:+ frac_digits 60 (Z.abs n mod d)%Z d
  | None =>
      if PrimFloat.is_nan x then "nan"
      else if (x <? 0)%float then "-inf" else "inf"
  end.




(** Rounding to the nearest integer, ties to even. *)
Definition round_half_even (n d : Z) : Z :=
  let f := (n / d)%Z in
  let r := (2 * (n mod d))%Z in
  if (r <? d)%Z then f
  else if (d <? r)%Z then (f + 1)%Z
  else if Z.even f then f else (f + 1)%Z.

Definition format_0f_decimal (x : float) : string :=
  match float_fraction x with
  | Some (n, d) => pretty (round_half_even n d)
  | None =>
      if PrimFloat.is_nan x then "nan"
      else if (x <? 0)%float then "-inf" else "inf"
  end.

(** *** Sums and means *)

(** The numbers of a group added from left to right, NaN left out. *)
Definition plain_sum (vs : list float) : float :=
  fold_left (fun acc v => if PrimFloat.is_nan v then acc else (acc + v)%float) vs 0%float.

Definition plain_mean (vs : list float) : float :=
  let present := List.filter (fun v => negb (PrimFloat.is_nan v)) vs in
  (plain_sum present / float_of_int64 (Z.of_nat (length present)))%float.

Definition mean_of_series (s : Series) : option float :=
  match s with
  | SInt64 vs => Some (plain_mean (map float_of_int64 vs))
  | SFloat64 vs => Some (plain_mean vs)
  | SBool vs => Some (plain_mean (map float_of_bool vs))
  | SObject vs => if existsb is_text vs then None else Some PrimFloat.nan
  end.

(** *** Dates *)

(** [YYYY-MM-DD], at midnight or followed by [ HH:MM:SS]. *)
Definition parse_datetime (s : string) : option Timestamp :=
  '(y, m, d) ← parse_ymd (String.substring 0 10 s);
  if Nat.eqb (String.length s) 10 then
    Some {| ts_year := y; ts_month := m; ts_day := d; ts_second := 0 |}
  else if negb (Nat.eqb (String.length s) 19) then None
  else if negb (String.eqb (String.substring 10 1 s) " ") then None
  else if negb (String.eqb (String.substring 13 1 s) ":") then None
  else if negb (String.eqb (String.substring 16 1 s) ":") then None
  else
    h ← parse_digits (String.substring 11 2 s);
    mi ← parse_digits (String.substring 14 2 s);
    sec ← parse_digits (String.substring 17 2 s);
    Some {| ts_year := y; ts_month := m; ts_day := d;
            ts_second := (h * 3600 + mi * 60 + sec)%nat |}.

Definition to_datetime_text (s : Series) : option (list (option Timestamp)) :=
  match s with
  | SObject vs =>
      mapM (fun o => match o with
                     | OStr t => Some <$> parse_datetime t
                     | ONaN => Some None
                     end) vs
  | _ => None
  end.

(** *** Files *)

(** [str] of a list of plain labels. *)
Definition list_repr_plain (l : list string) : string :=
  "[" +:+ String.concat ", " (map (fun c => "'" +:+ c +:+ "'") l) +:+ "]".

Definition value_text (v : PyValue) : string :=
  match v with
  | PStr s => s
  | PInt z => pretty z
  | PFloat x => if PrimFloat.is_nan x then "" else decimal_repr x
  | PBool b => if b then "True" else "False"
  | PTimestamp t => isoformat t
  | PNaT => ""
  end.

Fixpoint rows_text (n : nat) (cols : list (list string)) : list (list string) :=
  match n with
  | O => []
  | S n' => map (hd "") cols :: rows_text n' (map (@List.tl string) cols)
  end.

(** The text of a CSV file holding a frame. *)
Definition csv_text (df : DataFrame) : string :=
  let cols := map (fun c => map value_text (values (snd c))) (df_data df) in
  String.concat ""
    (map (fun fields => String.concat "," fields +:+ newline)
       (df_columns df :: rows_text (length (hd [] cols)) cols)).

(** A reader that parses the files written from the given frames and
    rejects every other content. *)
Definition read_known (known : list DataFrame) (content : string) : string + DataFrame :=
  match List.find (fun df => String.eqb (csv_text df) content) known with
  | Some df => inr df
  | None => inl "Error tokenizing data"
  end.

Fixpoint strip_prefix (p s : string) : option string :=
  match p, s with
  | EmptyString, _ => Some s
  | String a p', String b s' => if Ascii.eqb a b then strip_prefix p' s' else None
  | String _ _, EmptyString => None
  end.

(** A flat upload directory: a file can be created right under it, not
    under a directory that a slash in the name would ask for, and not with
    a name longer than 255 bytes. *)
Definition flat_directory (path : string) : bool :=
  match strip_prefix "./uploads/" path with
  | Some name =>
      negb (has_char "/"%char name) && negb (String.eqb name "")
        && (String.length name <=? 255)%nat
  | None => false
  end.

(** A header value without control characters. *)
Fixpoint plain_header (v : string) : bool :=
  match v with
  | EmptyString => true
  | String a v' =>
      (32 <=? Ascii.nat_of_ascii a)%nat && negb (Ascii.nat_of_ascii a =? 127)%nat
        && plain_header v'
  end.

(** *** The forecaster *)

Definition is_leap (y : nat) : bool :=
  ((y mod 4 =? 0) && negb (y mod 100 =? 0) || (y mod 400 =? 0))%nat.

Definition days_in_month (y m : nat) : nat :=
  match m with
  | 2 => if is_leap y then 29 else 28
  | 4 | 6 | 9 | 11 => 30
  | _ => 31
  end%nat.

Definition next_day (t : Timestamp) : Timestamp :=
  if (ts_day t <? days_in_month (ts_year t) (ts_month t))%nat then
    {| ts_year := ts_year t; ts_month := ts_month t;
       ts_day := S (ts_day t); ts_second := ts_second t |}
  else if (ts_month t <? 12)%nat then
    {| ts_year := ts_year t; ts_month := S (ts_month t);
       ts_day := 1; ts_second := ts_second t |}
  else
    {| ts_year := S (ts_year t); ts_month := 1; ts_day := 1; ts_second := ts_second t |}.

Fixpoint days_after (n : nat) (t : Timestamp) : list Timestamp :=
  match n with
  | O => []
  | S n' => next_day t :: days_after n' (next_day t)
  end.

Definition ts_max (a b : Timestamp) : Timestamp :=
  match ts_compare a b with
  | Lt => b
  | _ => a
  end.

(** A stand-in for the forecasting model: it predicts [level], give or take
    [spread], for every date of the history and for [periods] days after
    the latest of them, and raises on an empty history or a missing date. *)
Definition level_forecaster (level spread : float) (call : ProphetCall)
    : option (list ForecastRow) :=
  dates ← mapM id (history_ds call);
  match dates with
  | [] => None
  | d :: ds' =>
      let last := foldr ts_max d ds' in
      Some (map (fun t => {| ds := t; yhat := level;
                             yhat_lower := (level - spread)%float;
                             yhat_upper := (level + spread)%float |})
              (dates ++ days_after (periods call) last))
  end.

Definition libraries (known : list DataFrame) (level spread : float) : Libraries :=
  {| read_csv := read_known known;
     to_datetime := to_datetime_text;
     list_repr := list_repr_plain;
     type_error_lt := "'<' not supported between instances of 'str' and 'int'";
     format_0f := format_0f_decimal;
     float_repr := decimal_repr;
     series_mean := mean_of_series;
     float_sum := plain_sum;
     prophet_forecast := level_forecaster level spread;
     os_creatable := flat_directory;
     header_sendable := plain_header |}.

(** *** Example files *)

Definition january (day : nat) : string := "2024-01-" +:+ pad2 day.

Definition sales (date product_id : list Obj) (units_sold price : Series) : DataFrame :=
  {| df_data := [("date", SObject date); ("product_id", SObject product_id);
                 ("units_sold", units_sold); ("price", price)] |}.

(** The three records of the analysis example. *)
Definition small_sales : DataFrame :=
  sales [OStr "2024-01-01"; OStr "2024-01-01"; OStr "2024-01-02"]
        [OStr "A"; OStr "B"; OStr "A"]
        (SInt64 [10; 5; 7]%Z) (SFloat64 [2; 3; 2]%float).

(** Three products with equal totals, first met in the order B, A, C. *)
Definition tied_sales : DataFrame :=
  sales [OStr "2024-01-01"; OStr "2024-01-01"; OStr "2024-01-01"]
        [OStr "B"; OStr "A"; OStr "C"]
        (SInt64 [5; 5; 5]%Z) (SFloat64 [1; 1; 1]%float).

(** Two sales of one day at different times of the day. *)
Definition two_instants : DataFrame :=
  sales [OStr "2024-01-01 09:00:00"; OStr "2024-01-01 17:00:00"]
        [OStr "A"; OStr "A"]
        (SInt64 [10; 5]%Z) (SFloat64 [2; 3]%float).

(** A file with its header line and no record: every column is of object
    dtype. *)
Definition header_only : DataFrame :=
  sales [] [] (SObject []) (SObject []).

Definition days (n : nat) (product_id : string) (day : nat -> nat) : DataFrame :=
  sales (map (fun i => OStr (january (day i))) (seq 0 n))
        (map (fun _ => OStr product_id) (seq 0 n))
        (SInt64 (map (fun _ => 100%Z) (seq 0 n)))
        (SFloat64 (map (fun _ => 2%float) (seq 0 n))).

(** Thirty days of product A, a hundred units a day, oldest first. *)
Definition month_sales : DataFrame := days 30 "A" S.

(** The same thirty days, newest first. *)
Definition month_sales_newest_first : DataFrame := days 30 "A" (fun i => 30 - i)%nat.

(** Twenty-nine days of product A. *)
Definition short_sales : DataFrame := days 29 "A" S.

(** The euro sign, U+20AC, which has no latin-1 encoding. *)
Definition euro : string :=
  String (Ascii.ascii_of_nat 226)
    (String (Ascii.ascii_of_nat 130) (String (Ascii.ascii_of_nat 172) EmptyString)).

(** Thirty days of the product named by the euro sign. *)
Definition euro_sales : DataFrame := days 30 euro S.

(** Thirty days of product 101: the reader takes the column of product ids
    for integers. *)
Definition numbered_sales : DataFrame :=
  {| df_data := [("date", SObject (map (fun i => OStr (january (S i))) (seq 0 30)));
                 ("product_id", SInt64 (map (fun _ => 101%Z) (seq 0 30)));
                 ("units_sold", SInt64 (map (fun _ => 100%Z) (seq 0 30)));
                 ("price", SFloat64 (map (fun _ => 2%float) (seq 0 30)))] |}.

(** A file whose [units_sold] column holds text. *)
Definition text_units : DataFrame :=
  sales [OStr "2024-01-01"] [OStr "A"] (SObject [OStr "ten"]) (SFloat64 [2]%float).

(** A file with a negative price. *)
Definition negative_price : DataFrame :=
  sales [OStr "2024-01-01"] [OStr "A"] (SInt64 [10]%Z) (SFloat64 [-2]%float).

(** A file without the [price] column. *)
Definition no_price : DataFrame :=
  {| df_data := [("date", SObject [OStr "2024-01-01"]); ("product_id", SObject [OStr "A"]);
                 ("units_sold", SInt64 [10]%Z)] |}.

(** A file whose second record names no product. *)
Definition unnamed_product : DataFrame :=
  sales [OStr "2024-01-01"; OStr "2024-01-02"] [OStr "A"; ONaN]
        (SInt64 [10; 5]%Z) (SFloat64 [2; 3]%float).

(** Thirty records of product A whose dates are no dates. *)
Definition undated_sales : DataFrame :=
  sales (map (fun _ => OStr "soon") (seq 0 30))
        (map (fun _ => OStr "A") (seq 0 30))
        (SInt64 (map (fun _ => 100%Z) (seq 0 30)))
        (SFloat64 (map (fun _ => 2%float) (seq 0 30))).

(** A file with an infinite price, which the reader takes from the text
    [inf]. *)
Definition unbounded_price : DataFrame :=
  sales [OStr "2024-01-01"] [OStr "A"] (SInt64 [10]%Z) (SFloat64 [PrimFloat.infinity]).

Definition known_files : list DataFrame :=
  [small_sales; tied_sales; two_instants; header_only; month_sales;
   month_sales_newest_first; short_sales; euro_sales; numbered_sales;
   text_units; negative_price; no_price; unnamed_product; undated_sales;
   unbounded_price].

(** The libraries of the examples: the forecaster predicts a hundred and
    twenty units, give or take ten. *)
Definition libs : Libraries := libraries known_files 120 10.

Definition store (filename : string) (df : DataFrame) : Storage :=
  {[ user_file_path 1 filename := csv_text df ]}.

(** The column of a frame of the examples. *)
Definition col (df : DataFrame) (name : string) : Series :=
  default (SObject []) (column df name).

(** The history of a product in a frame of the examples, and the forecast
    the stand-in makes of it. *)
Definition rows_of (df : DataFrame) (product_id : string) : list nat :=
  matching_indices (col df "product_id") product_id.

Definition dates_of (df : DataFrame) (product_id : string) : list (option Timestamp) :=
  default [] (to_datetime_text (series_at (rows_of df product_id) (col df "date"))).


Definition units_of (df : DataFrame) (product_id : string) : Series :=
  series_at (rows_of df product_id) (col df "units_sold").

Definition forecast_of (df : DataFrame) (product_id : string) : list ForecastRow :=
  default []
    (level_forecaster 120 10
       {| daily_seasonality := true; history_ds := dates_of df product_id;
          history_y := units_of df product_id; periods := 30 |}).

End Examples.

(** ** Example account libraries *)

Module AccountExamples.

(** The text before and after the first occurrence of a character. *)
Fixpoint cut_at (c : Ascii.ascii) (s : string) : option (string * string) :=
  match s with
  | EmptyString => None
  | String a s' =>
      if Ascii.eqb a c then Some (EmptyString, s')
      else '(before, after) ← cut_at c s'; Some (String a before, after)
  end.

Definition colon : Ascii.ascii := Ascii.ascii_of_nat 58.

(** A hash that keeps the password after the salt, and its verifier, which
    raises on the empty hash. *)
Definition salted_hash (salt password : string) : string :=
  "$" +:+ salt +:+ "$" +:+ password.

Definition salted_verify (password hashed : string) : option bool :=
  if String.eqb hashed "" then None
  else Some (endswith hashed ("$" +:+ password)).

(** A token is the expiry and the subject in clear. *)
Definition plain_encode (claims : Claims) : string :=
  match claims !! "exp", claims !! "sub" with
  | Some (VInt e), Some (VStr s) => pretty e +:+ ":" +:+ s
  | _, _ => ""
  end.

Definition plain_fields (token : string) : option (Z * string) :=
  '(e_text, s) ← cut_at colon token;
  e ← parse_digits e_text;
  Some (Z.of_nat e, s).

(** A token is refused once the clock has passed its expiry. *)
Definition plain_decode (t : Z) (token : string) : option Claims :=
  '(e, s) ← plain_fields token;
  if (e <? t)%Z then None
  else Some (<["exp" := VInt e]> {[ "sub" := VStr s ]}).

Definition libs : AuthLibraries :=
  {| pwd_context_hash := salted_hash;
     pwd_context_verify := salted_verify;
     jwt_encode := plain_encode;
     jwt_decode := plain_decode;
     next_id := fun db => (Z.of_nat (length db) + 1)%Z |}.

Definition ann : UserCreate :=
  {| uc_email := "ann@example.com";
     uc_password := "correct horse";
     uc_first_name := "Ann";
     uc_last_name := "Lee" |}.

(** The row of [ann] after her registration with the salt [s1]. *)
Definition ann_row : User :=
  {| u_id := 1;
     u_email := "ann@example.com";
     u_hashed_password := "$s1$correct horse";
     u_first_name := "Ann";
     u_last_name := "Lee" |}.

(** What the provider reports about [bob]. *)
Definition bob_info : gmap string string :=
  {[ "email" := "bob@example.com"; "given_name" := "Bob"; "family_name" := "Ray" ]}.

Definition bob_row : User :=
  {| u_id := 2;
     u_email := "bob@example.com";
     u_hashed_password := "";
     u_first_name := "Bob";
     u_last_name := "Ray" |}.

End AccountExamples.

(** * Properties *)

(** ** Comparison functions *)

Section CmpFacts.
Context {K : Type} {cmp : K -> K -> comparison} (laws : CmpLaws cmp).

Lemma cmp_refl a : cmp a a = Eq.
Proof.
  pose proof (cmp_antisym cmp laws a a) as E.
  destruct (cmp a a); simpl in E; congruence.
Qed.

Lemma cmp_eq_sym a b : cmp a b = Eq -> cmp b a = Eq.
Proof. intros E. rewrite (cmp_antisym cmp laws a b), E. reflexivity. Qed.


Lemma cmp_lt_gt a b : cmp a b = Lt -> cmp b a = Gt.
Proof. intros E. rewrite (cmp_antisym cmp laws a b), E. reflexivity. Qed.

Lemma cmp_eq_trans a b c : cmp a b = Eq -> cmp b c = Eq -> cmp a c = Eq.
Proof. intros E1 E2. rewrite (cmp_eq_compat cmp laws a b c E1). exact E2. Qed.

End CmpFacts.

Lemma nat_compare_cases (a b : nat) :
  (Nat.compare a b = Lt /\ (a < b)%nat) \/ (Nat.compare a b = Eq /\ a = b)
  \/ (Nat.compare a b = Gt /\ (b < a)%nat).
Proof. destruct (Nat.compare_spec a b); auto. Qed.

Ltac nat_compare_split :=
  repeat match goal with
  | |- context [Nat.compare ?a ?b] =>
      let E := fresh "E" in
      destruct (nat_compare_cases a b) as [[E ?]|[[E ?]|[E ?]]]; rewrite E in *; clear E
  | H : context [Nat.compare ?a ?b] |- _ =>
      let E := fresh "E" in
      destruct (nat_compare_cases a b) as [[E ?]|[[E ?]|[E ?]]]; rewrite E in *; clear E
  end.

Lemma nat_compare_laws : CmpLaws Nat.compare.
Proof.
  split.
  - intros a b. nat_compare_split; simpl; try reflexivity; lia.
  - intros a b c H1 H2. nat_compare_split; try reflexivity; try discriminate; lia.
  - intros a b c H1. nat_compare_split; try reflexivity; try discriminate; lia.
Qed.

Lemma Z_compare_laws : CmpLaws Z.compare.
Proof.
  split.
  - intros a b. apply Z.compare_antisym.
  - intros a b c. rewrite !Z.compare_lt_iff. lia.
  - intros a b c E. apply Z.compare_eq in E. subst. reflexivity.
Qed.

Lemma ts_compare_laws : CmpLaws ts_compare.
Proof.
  split.
  - intros [y1 m1 d1 s1] [y2 m2 d2 s2]; unfold ts_compare; simpl.
    nat_compare_split; simpl; try reflexivity; try lia.
  - intros [y1 m1 d1 s1] [y2 m2 d2 s2] [y3 m3 d3 s3]; unfold ts_compare; simpl.
    intros H1 H2. nat_compare_split; simpl in *; try reflexivity; try discriminate; try lia.
  - intros [y1 m1 d1 s1] [y2 m2 d2 s2] [y3 m3 d3 s3]; unfold ts_compare; simpl.
    intros H1. nat_compare_split; simpl in *; try reflexivity; try discriminate; try lia.
Qed.

(** Two timestamps compare equal exactly when they are the same instant. *)
Lemma ts_compare_eq a b : ts_compare a b = Eq <-> a = b.
Proof.
  split.
  - destruct a as [y1 m1 d1 s1], b as [y2 m2 d2 s2]; unfold ts_compare; simpl.
    intros H1. nat_compare_split; try discriminate. subst. reflexivity.
  - intros ->. apply (cmp_refl ts_compare_laws).
Qed.

Lemma string_compare_trans_lt (a b c : string) :
  String.compare a b = Lt -> String.compare b c = Lt -> String.compare a c = Lt.
Proof.
  revert b c. induction a as [|x a IH]; intros [|y b] [|z c]; simpl; try congruence.
  unfold Ascii.compare.
  destruct (N.compare_spec (N_of_ascii x) (N_of_ascii y)) as [E1|E1|E1]; try discriminate;
  destruct (N.compare_spec (N_of_ascii y) (N_of_ascii z)) as [E2|E2|E2]; try discriminate;
  intros H1 H2.
  - rewrite E1, E2, N.compare_refl. eauto.
  - rewrite E1. apply N.compare_lt_iff in E2. rewrite E2. reflexivity.
  - rewrite <- E2. apply N.compare_lt_iff in E1. rewrite E1. reflexivity.
  - assert (N_of_ascii x < N_of_ascii z)%N as E by lia.
    apply N.compare_lt_iff in E. rewrite E. reflexivity.
Qed.

Lemma string_compare_laws : CmpLaws String.compare.
Proof.
  split.
  - intros a b. apply String.compare_antisym.
  - apply string_compare_trans_lt.
  - intros a b c E. apply String.compare_eq_iff in E. subst. reflexivity.
Qed.

(** *** The order of floats *)

Lemma lex3_laws : CmpLaws lex3.
Proof.
  split.
  - intros [a1 [a2 a3]] [b1 [b2 b3]]. unfold lex3. simpl.
    rewrite (Z.compare_antisym a1 b1), (Z.compare_antisym a2 b2), (Z.compare_antisym a3 b3).
    destruct (a1 ?= b1)%Z, (a2 ?= b2)%Z, (a3 ?= b3)%Z; reflexivity.
  - intros [a1 [a2 a3]] [b1 [b2 b3]] [c1 [c2 c3]]. unfold lex3. simpl.
    destruct (Z.compare_spec a1 b1), (Z.compare_spec b1 c1), (Z.compare_spec a1 c1);
      try discriminate; try lia; try reflexivity;
    destruct (Z.compare_spec a2 b2), (Z.compare_spec b2 c2), (Z.compare_spec a2 c2);
      try discriminate; try lia; try reflexivity;
    destruct (Z.compare_spec a3 b3), (Z.compare_spec b3 c3), (Z.compare_spec a3 c3);
      try discriminate; try lia; try reflexivity.
  - intros [a1 [a2 a3]] [b1 [b2 b3]] [c1 [c2 c3]]. unfold lex3. simpl.
    destruct (Z.compare_spec a1 b1); try discriminate.
    destruct (Z.compare_spec a2 b2); try discriminate.
    intros E. apply Z.compare_eq in E. subst. reflexivity.
Qed.

Lemma is_nan_spec x :
  PrimFloat.is_nan x = match Prim2SF x with S754_nan => true | _ => false end.
Proof.
  unfold PrimFloat.is_nan. rewrite FloatAxioms.eqb_spec. unfold SFeqb.
  destruct (Prim2SF x) as [s|s| |s m e]; simpl; try reflexivity.
  - destruct s; reflexivity.
  - rewrite Z.compare_refl.
    change (Pos.compare_cont Eq m m) with (m ?= m)%positive.
    rewrite Pos.compare_refl. destruct s; reflexivity.
Qed.

Lemma float_cmp_rank a b : float_cmp a b = lex3 (sf_rank (Prim2SF a)) (sf_rank (Prim2SF b)).
Proof.
  unfold float_cmp. rewrite FloatAxioms.compare_spec, !is_nan_spec.
  destruct (Prim2SF a) as [s1|s1| |s1 m1 e1], (Prim2SF b) as [s2|s2| |s2 m2 e2];
    try destruct s1; try destruct s2; try reflexivity;
    unfold lex3; simpl.
  - change (Pos.compare_cont Eq m1 m2) with (m1 ?= m2)%positive.
    destruct (Z.compare_spec e1 e2), (Z.compare_spec (- e1) (- e2)); try lia; try reflexivity.
    destruct (Pos.compare_spec m1 m2), (Z.compare_spec (Z.neg m1) (Z.neg m2));
      try lia; reflexivity.
  - change (Pos.compare_cont Eq m1 m2) with (m1 ?= m2)%positive.
    destruct (Z.compare_spec e1 e2); try reflexivity.
    destruct (Pos.compare_spec m1 m2), (Z.compare_spec (Z.pos m1) (Z.pos m2));
      try lia; reflexivity.
Qed.

Lemma float_cmp_laws : CmpLaws float_cmp.
Proof.
  destruct lex3_laws as [A T E]. split.
  - intros a b. rewrite !float_cmp_rank. apply A.
  - intros a b c. rewrite !float_cmp_rank. apply T.
  - intros a b c. rewrite !float_cmp_rank. apply E.
Qed.

(** On numbers the order is that of [<]. *)
Lemma float_cmp_ltb a b :
  PrimFloat.is_nan a = false -> PrimFloat.is_nan b = false ->
  (a <? b)%float = true <-> float_cmp a b = Lt.
Proof.
  intros Ha Hb. unfold float_cmp.
  rewrite FloatAxioms.ltb_spec, FloatAxioms.compare_spec. unfold SFltb.
  rewrite is_nan_spec in Ha, Hb.
  destruct (SFcompare (Prim2SF a) (Prim2SF b)) as [[| |]|] eqn:E; simpl;
    try (split; congruence).
  destruct (Prim2SF a) as [s1|s1| |s1 m1 e1], (Prim2SF b) as [s2|s2| |s2 m2 e2];
    simpl in E; discriminate.
Qed.

Lemma bool_compare_laws : CmpLaws (fun x y : bool => Nat.compare (Nat.b2n x) (Nat.b2n y)).
Proof.
  destruct nat_compare_laws as [A T E]. split.
  - intros a b. apply A.
  - intros a b c. apply T.
  - intros a b c. apply E.
Qed.

Lemma key_compare_laws : CmpLaws key_compare.
Proof.
  split.
  - intros a b. destruct a, b; simpl; try reflexivity.
    + apply String.compare_antisym.
    + apply Z.compare_antisym.
    + apply (cmp_antisym _ float_cmp_laws).
    + apply (cmp_antisym _ bool_compare_laws).
    + apply (cmp_antisym _ ts_compare_laws).
  - intros a b c. destruct a, b, c; simpl; try congruence.
    + apply string_compare_trans_lt.
    + apply (cmp_trans_lt _ Z_compare_laws).
    + apply (cmp_trans_lt _ float_cmp_laws).
    + apply (cmp_trans_lt _ bool_compare_laws).
    + apply (cmp_trans_lt _ ts_compare_laws).
  - intros a b c. destruct a, b, c; simpl; try congruence.
    + apply (cmp_eq_compat _ string_compare_laws).
    + apply (cmp_eq_compat _ Z_compare_laws).
    + apply (cmp_eq_compat _ float_cmp_laws).
    + apply (cmp_eq_compat _ bool_compare_laws).
    + apply (cmp_eq_compat _ ts_compare_laws).
Qed.

(** [value_same] is comparing equal. *)
Lemma value_same_compare a b : value_same a b = true <-> key_compare a b = Eq.
Proof.
  destruct a, b; simpl; try (split; discriminate).
  - rewrite String.eqb_eq. split.
    + intros ->. apply (cmp_refl string_compare_laws).
    + apply String.compare_eq_iff.
  - rewrite Z.eqb_eq. symmetry. apply Z.compare_eq_iff.
  - destruct (float_cmp x x0); split; congruence.
  - destruct b, b0; simpl; split; congruence.
  - rewrite bool_decide_eq_true. symmetry. apply ts_compare_eq.
  - split; reflexivity.
Qed.

(** ** Grouping *)

Section GroupByFacts.
Context {K V : Type} {cmp : K -> K -> comparison} (laws : CmpLaws cmp).
Local Abbreviation key_lt := (@key_lt K cmp (list V)).
Local Abbreviation grouped := (@grouped K V cmp).
Local Abbreviation values_of := (@values_of K V cmp).















(** The keys of a grouping are pairwise different. *)
Lemma grouped_keys_differ rows groups i j a b :
  grouped rows groups ->
  groups !! i = Some a -> groups !! j = Some b ->
  cmp (fst a) (fst b) = Eq -> i = j.
Proof.
  intros G. pose proof (grouped_sorted _ _ _ G) as S. clear G.
  revert i j. induction S as [|x l S IH Hall]; intros i j Hi Hj E.
  - destruct i; discriminate.
  - rewrite Forall_forall in Hall.
    destruct i as [|i], j as [|j]; simpl in *.
    + reflexivity.
    + inversion Hi; subst. apply list_elem_of_lookup_2 in Hj.
      specialize (Hall _ Hj). unfold key_lt in Hall. congruence.
    + inversion Hj; subst. apply list_elem_of_lookup_2 in Hi.
      specialize (Hall _ Hi). unfold key_lt in Hall.
      apply (cmp_eq_sym laws) in E. congruence.
    + f_equal. eapply IH; eassumption.
Qed.
End GroupByFacts.

(** ** The largest groups *)

Section NLargestFacts.
Context {K V : Type} {kcmp : K -> K -> comparison} {vcmp : V -> V -> comparison}.
Context (vlaws : CmpLaws vcmp).








End NLargestFacts.






(** ** Results *)

Lemma bind_Ok {A B} (r : Result A) (k : A -> Result B) (b : B) :
  r ≫= k = Ok b -> exists a, r = Ok a /\ k a = Ok b.
Proof. destruct r; simpl; intros E; try discriminate. eauto. Qed.

Lemma guard_Ok c status_code detail u : guard c status_code detail = Ok u -> c = true.
Proof. destruct c; simpl; [reflexivity|discriminate]. Qed.

Lemma uncaught_Ok {A} (o : option A) (a : A) : uncaught o = Ok a -> o = Some a.
Proof. destruct o; simpl; intros E; inversion E; reflexivity. Qed.

Ltac invert_Ok H :=
  repeat match type of H with
  | _ ≫= _ = Ok _ =>
      let a := fresh "a" in
      let E := fresh "E" in
      apply bind_Ok in H as (a & E & H);
      first [ apply guard_Ok in E | apply uncaught_Ok in E | idtac ]
  end.

(** ** Texts *)


(** ** Windows *)

Lemma tail_last_rows {A} n (l : list A) : tail n l = last_rows n l.
Proof. unfold tail, last_rows. rewrite firstn_rev, rev_involutive. reflexivity. Qed.


Lemma tail_length {A} n (l : list A) : length (tail n l) = Nat.min n (length l).
Proof. unfold tail. rewrite length_skipn. lia. Qed.

(** ** The trend of a change *)


Lemma undefined_or_zero_test h :
  undefined_or_zero h <-> PrimFloat.is_nan h || (h =? 0)%float = true.
Proof. unfold undefined_or_zero. rewrite orb_true_iff. reflexivity. Qed.




(** ** int64 *)



(** ** Rows at positions *)

Lemma at_indices_shift {A} (x : A) (l : list A) (idx : list nat) :
  at_indices (map S idx) (x :: l) = at_indices idx l.
Proof.
  unfold at_indices. induction idx as [|i idx IH]; [reflexivity|].
  cbn [map omap list_omap]. rewrite IH. reflexivity.
Qed.

Lemma at_indices_nil {A} (idx : list nat) : at_indices idx (@nil A) = [].
Proof. unfold at_indices. induction idx as [|i idx IH]; [reflexivity|]. exact IH. Qed.

Lemma filter_seq_shift (f : nat -> bool) k n :
  List.filter f (seq (S k) n) = map S (List.filter (fun i => f (S i)) (seq k n)).
Proof.
  revert k. induction n as [|n IH]; intros k; simpl; [reflexivity|].
  rewrite IH. destruct (f (S k)); reflexivity.
Qed.

(** Selecting by a mask is taking the entries at the positions where the
    mask holds. *)
Lemma filter_mask_at_indices {A} (mask : list bool) (l : list A) :
  filter_mask mask l
  = at_indices (List.filter (fun i => default false (mask !! i)) (seq 0 (length mask))) l.
Proof.
  unfold filter_mask. revert l. induction mask as [|b mask IH]; intros l.
  - reflexivity.
  - destruct l as [|x l].
    + rewrite at_indices_nil. destruct b; reflexivity.
    + pose proof (filter_seq_shift (fun i => default false ((b :: mask) !! i)) 0
                    (length mask)) as Hs.
      change (fun i => default false ((b :: mask) !! S i))
        with (fun i => default false (mask !! i)) in Hs.
      cbn [length seq List.filter combine].
      change (default false ((b :: mask) !! 0%nat)) with b.
      rewrite Hs. specialize (IH l). destruct b; cbn [fst snd map].
      * unfold at_indices at 1. cbn [omap list_omap lookup list_lookup].
        f_equal. etransitivity; [exact IH|]. symmetry. apply at_indices_shift.
      * etransitivity; [exact IH|]. symmetry. apply at_indices_shift.
Qed.

(** ** Columns of a filtered frame *)

Lemma series_filter_at mask s :
  series_filter mask s
  = series_at (List.filter (fun i => default false (mask !! i)) (seq 0 (length mask))) s.
Proof. destruct s; simpl; rewrite filter_mask_at_indices; reflexivity. Qed.

Lemma eq_mask_length ids v : length (eq_mask ids v) = length (values ids).
Proof. destruct ids; simpl; rewrite !length_map; reflexivity. Qed.

Lemma eq_mask_lookup ids v i :
  default false (eq_mask ids v !! i)
  = match values ids !! i with
    | Some (PStr t) => String.eqb t v
    | _ => false
    end.
Proof.
  destruct ids as [vs|vs|vs|vs]; simpl; rewrite !list_lookup_fmap;
    destruct (vs !! i) as [x|]; simpl; try reflexivity.
  destruct x; reflexivity.
Qed.

Lemma filter_ext_seq (f g : nat -> bool) k n :
  (forall i, f i = g i) -> List.filter f (seq k n) = List.filter g (seq k n).
Proof. intros E. apply List.filter_ext. intros i. apply E. Qed.

(** The rows the comparison selects are those whose cell is the text asked
    for. *)
Lemma eq_mask_indices ids v :
  List.filter (fun i => default false (eq_mask ids v !! i)) (seq 0 (length (eq_mask ids v)))
  = matching_indices ids v.
Proof.
  unfold matching_indices. rewrite eq_mask_length.
  apply filter_ext_seq. intros i. apply eq_mask_lookup.
Qed.

Lemma mask_count_indices mask :
  mask_count mask
  = length (List.filter (fun i => default false (mask !! i)) (seq 0 (length mask))).
Proof.
  unfold mask_count. induction mask as [|b mask IH]; [reflexivity|].
  cbn [length seq List.filter].
  rewrite (filter_seq_shift (fun i => default false ((b :: mask) !! i)) 0 (length mask)).
  change (fun i => default false ((b :: mask) !! S i))
    with (fun i => default false (mask !! i)).
  change (default false ((b :: mask) !! 0%nat)) with b.
  destruct b; cbn [id length]; rewrite ?length_map, IH; reflexivity.
Qed.

Lemma mask_count_matching ids v :
  mask_count (eq_mask ids v) = length (matching_indices ids v).
Proof. rewrite mask_count_indices, eq_mask_indices. reflexivity. Qed.

Lemma find_map_snd {A B} (f : A -> B) (p : string * A -> bool) (q : string * B -> bool)
    (l : list (string * A)) :
  (forall c, q (fst c, f (snd c)) = p c) ->
  List.find q (map (fun c => (fst c, f (snd c))) l)
  = (fun c => (fst c, f (snd c))) <$> List.find p l.
Proof.
  intros E. induction l as [|c l IH]; [reflexivity|].
  cbn [map List.find]. rewrite E. destruct (p c); [reflexivity|exact IH].
Qed.

Lemma column_df_filter mask df name :
  column (df_filter mask df) name = series_filter mask <$> column df name.
Proof.
  unfold column, df_filter. cbn [df_data].
  rewrite (find_map_snd (series_filter mask) (fun c => String.eqb (fst c) name)
             (fun c => String.eqb (fst c) name)) by reflexivity.
  destruct (List.find _ (df_data df)); reflexivity.
Qed.

(** The column of the rows of a product is the column at the positions of
    those rows. *)
Lemma column_product_history df ids product_id name :
  column (df_filter (eq_mask ids product_id) df) name
  = series_at (matching_indices ids product_id) <$> column df name.
Proof.
  rewrite column_df_filter. destruct (column df name) as [s|]; [|reflexivity].
  cbn [fmap option_fmap option_map]. rewrite series_filter_at, eq_mask_indices. reflexivity.
Qed.

(** ** Stored files *)

Section FileFacts.
Context `{Libraries}.

Lemma file_exists_true (fs : Storage) path content :
  fs !! path = Some content -> file_exists fs path = true.
Proof. intros E. unfold file_exists. apply bool_decide_eq_true. eauto. Qed.

Lemma file_exists_false (fs : Storage) path :
  fs !! path = None -> file_exists fs path = false.
Proof.
  intros E. unfold file_exists. apply bool_decide_eq_false. rewrite E.
  intros [x Hx]. discriminate.
Qed.

Lemma load_csv_read (fs : Storage) path content df :
  fs !! path = Some content -> read_csv content = inr df -> load_csv fs path = Ok df.
Proof. intros E R. unfold load_csv. rewrite E, R. reflexivity. Qed.

Lemma load_csv_Ok (fs : Storage) path df :
  load_csv fs path = Ok df ->
  exists content, fs !! path = Some content /\ read_csv content = inr df.
Proof.
  unfold load_csv. destruct (fs !! path) as [content|]; [|discriminate].
  destruct (read_csv content) as [e|df'] eqn:R; [discriminate|].
  intros E. inversion E; subst. eauto.
Qed.

(** The three readers on a name under which nothing is stored. *)
Lemma readers_not_found (fs : Storage) user_id product_id filename :
  fs !! user_file_path user_id filename = None ->
  get_historical_analysis fs user_id filename
    = HTTPException 404 "File not found. Please upload it again."
  /\ get_forecast fs user_id product_id filename
     = HTTPException 404 "File not found. Please upload it again."
  /\ export_forecast_csv fs user_id product_id filename
     = HTTPException 404 "File not found. Please upload it again.".
Proof.
  intros E. unfold get_historical_analysis, get_forecast, export_forecast_csv.
  rewrite (file_exists_false _ _ E). repeat split; reflexivity.
Qed.

(** ** The two forecasting handlers after the file is read *)

Lemma forecast_answer_generated product_id dates units forecast :
  (insight_text ← uncaught (generate_insight format_0f series_mean product_id units forecast);
   let response :=
     {| fc_product_id := product_id;
        fc_insight := insight_text;
        historical_data := map history_record (combine dates (values units));
        forecast_data := map forecast_record (tail 30 forecast) |} in
   if forecast_compliant response then Ok response else Unhandled)
  = forecast_answer product_id dates units forecast.
Proof.
  unfold forecast_answer, forecast_response.
  destruct (generate_insight _ _ _ _ _) as [text|]; [|reflexivity].
  cbn [uncaught mbind Result_bind]. rewrite tail_last_rows. reflexivity.
Qed.

Lemma get_forecast_stored (fs : Storage) user_id product_id filename content df ids :
  fs !! user_file_path user_id filename = Some content ->
  read_csv content = inr df ->
  column df "product_id" = Some ids ->
  get_forecast fs user_id product_id filename
  = let idx := matching_indices ids product_id in
    if (length idx =? 0)%nat then
      HTTPException 404 ("Product ID '" +:+ product_id +:+ "' not found.")
    else if (length idx <? 30)%nat then
      HTTPException 400 "Not enough data. A minimum of 30 data points is required."
    else forecast_steps df idx (forecast_answer product_id).
Proof.
  intros E R I. unfold get_forecast.
  rewrite (file_exists_true _ _ _ E), (load_csv_read _ _ _ _ E R).
  cbn [guard uncaught mbind Result_bind]. rewrite I.
  cbn [guard uncaught mbind Result_bind]. rewrite mask_count_matching.
  cbv zeta. destruct (length (matching_indices ids product_id) =? 0)%nat; [reflexivity|].
  destruct (length (matching_indices ids product_id) <? 30)%nat; [reflexivity|].
  cbn [negb guard mbind Result_bind]. unfold forecast_steps.
  rewrite !column_product_history.
  destruct (column df "date") as [date|]; [|reflexivity].
  destruct (column df "units_sold") as [units|]; [|reflexivity].
  cbn [fmap option_fmap option_map uncaught mbind Result_bind].
  destruct (to_datetime _) as [dates|]; [|reflexivity].
  cbn [uncaught mbind Result_bind]. unfold forecast_call.
  destruct (prophet_forecast _) as [forecast|]; [|reflexivity].
  cbn [uncaught mbind Result_bind]. apply forecast_answer_generated.
Qed.

Lemma export_stored (fs : Storage) user_id product_id filename content df ids :
  fs !! user_file_path user_id filename = Some content ->
  read_csv content = inr df ->
  column df "product_id" = Some ids ->
  export_forecast_csv fs user_id product_id filename
  = let idx := matching_indices ids product_id in
    if (length idx =? 0)%nat then
      HTTPException 404 ("Product ID '" +:+ product_id +:+ "' not found.")
    else if (length idx <? 30)%nat then
      HTTPException 400 "Not enough data to export."
    else forecast_steps df idx (fun _ _ forecast => export_answer product_id forecast).
Proof.
  intros E R I. unfold export_forecast_csv.
  rewrite (file_exists_true _ _ _ E), (load_csv_read _ _ _ _ E R).
  cbn [guard uncaught mbind Result_bind]. rewrite I.
  cbn [guard uncaught mbind Result_bind]. rewrite mask_count_matching.
  cbv zeta. destruct (length (matching_indices ids product_id) =? 0)%nat; [reflexivity|].
  destruct (length (matching_indices ids product_id) <? 30)%nat; [reflexivity|].
  cbn [negb guard mbind Result_bind]. unfold forecast_steps.
  rewrite !column_product_history.
  destruct (column df "date") as [date|]; [|reflexivity].
  destruct (column df "units_sold") as [units|]; [|reflexivity].
  cbn [fmap option_fmap option_map uncaught mbind Result_bind].
  destruct (to_datetime _) as [dates|]; [|reflexivity].
  cbn [uncaught mbind Result_bind]. unfold forecast_call.
  destruct (prophet_forecast _) as [forecast|]; reflexivity.
Qed.

(** How both handlers answer a request whose file cannot be read or has no
    [product_id] column: with an uncaught exception. *)
Lemma readers_unreadable (fs : Storage) user_id product_id filename content :
  fs !! user_file_path user_id filename = Some content ->
  (forall df, read_csv content = inr df -> column df "product_id" = None) ->
  get_forecast fs user_id product_id filename = Unhandled
  /\ export_forecast_csv fs user_id product_id filename = Unhandled.
Proof.
  intros E R. unfold get_forecast, export_forecast_csv, load_csv.
  rewrite (file_exists_true _ _ _ E), E.
  destruct (read_csv content) as [e|df] eqn:Rd; [split; reflexivity|].
  cbn [guard uncaught mbind Result_bind]. rewrite (R df eq_refl). split; reflexivity.
Qed.

Lemma forecast_steps_Ok {A} df idx (answer : _ -> _ -> _ -> Result A) a :
  forecast_steps df idx answer = Ok a ->
  exists date units dates forecast,
    column df "date" = Some date
    /\ column df "units_sold" = Some units
    /\ to_datetime (series_at idx date) = Some dates
    /\ prophet_forecast (forecast_call dates (series_at idx units)) = Some forecast
    /\ answer dates (series_at idx units) forecast = Ok a.
Proof.
  unfold forecast_steps. intros E. invert_Ok E.
  destruct (column df "date") as [date|]; [|discriminate].
  destruct (column df "units_sold") as [units|]; [|discriminate].
  cbn [fmap option_fmap option_map] in *.
  inversion E0; inversion E1; subst. eauto 10.
Qed.
End FileFacts.

(** ** Finite numbers *)






(** ** Distinct values *)

Lemma value_same_refl c : value_same c c = true.
Proof. apply value_same_compare, (cmp_refl key_compare_laws). Qed.

Lemma value_same_sym c d : value_same c d = value_same d c.
Proof.
  destruct (value_same c d) eqn:E1, (value_same d c) eqn:E2; try reflexivity.
  - apply value_same_compare, (cmp_eq_sym key_compare_laws), value_same_compare in E1.
    congruence.
  - apply value_same_compare, (cmp_eq_sym key_compare_laws), value_same_compare in E2.
    congruence.
Qed.

Lemma value_same_trans c d e :
  value_same c d = true -> value_same d e = true -> value_same c e = true.
Proof.
  rewrite !value_same_compare. apply (cmp_eq_trans key_compare_laws).
Qed.

Lemma ForallOrdPairs_filter {A} (R : A -> A -> Prop) (f : A -> bool) (l : list A) :
  ForallOrdPairs R l -> ForallOrdPairs R (List.filter f l).
Proof.
  induction 1 as [|a l Ha Hl IH]; simpl; [constructor|].
  destruct (f a); [|exact IH]. constructor; [|exact IH].
  apply List.Forall_forall. intros x Hx. apply filter_In in Hx as [Hx _].
  rewrite List.Forall_forall in Ha. apply Ha. exact Hx.
Qed.

(** [unique] lists the distinct values of a series, each once. *)
Lemma unique_distinct_values s : distinct_values s (unique s).
Proof.
  unfold distinct_values. induction s as [|c s (IH1 & IH2 & IH3)]; simpl.
  - split; [|split]; [intros c Hc; inversion Hc..|constructor].
  - split; [|split].
    + intros d Hd. apply elem_of_cons in Hd as [->|Hd]; [left|right].
      apply list_elem_of_In, filter_In in Hd as [Hd _]. apply IH1, list_elem_of_In, Hd.
    + intros d Hd. apply elem_of_cons in Hd as [->|Hd].
      * exists c. split; [left|apply value_same_refl].
      * destruct (IH2 d Hd) as (d' & Hd' & E).
        destruct (value_same c d') eqn:Ec.
        -- exists c. split; [left|].
           eapply value_same_trans; [exact E|]. rewrite value_same_sym. exact Ec.
        -- exists d'. split; [|exact E]. right.
           apply list_elem_of_In, filter_In. split; [apply list_elem_of_In, Hd'|].
           rewrite Ec. reflexivity.
    + constructor; [|apply ForallOrdPairs_filter; exact IH3].
      apply List.Forall_forall. intros x Hx. apply filter_In in Hx as [_ Hx].
      apply negb_true_iff in Hx. exact Hx.
Qed.


(** ** Columns by label *)

Lemma existsb_eqb_elem c (cols : list string) :
  existsb (String.eqb c) cols = true <-> c ∈ cols.
Proof.
  rewrite existsb_exists. split.
  - intros (x & Hx & E). apply String.eqb_eq in E. subst. apply list_elem_of_In, Hx.
  - intros Hc. exists c. split; [apply list_elem_of_In, Hc|apply String.eqb_refl].
Qed.

Lemma issubset_required df :
  issubset required_columns (df_columns df) = true <-> has_required_columns df.
Proof.
  unfold issubset, has_required_columns, required_columns. rewrite forallb_forall. split.
  - intros Hall c Hc. apply existsb_eqb_elem, Hall, list_elem_of_In, Hc.
  - intros Hall c Hc. apply existsb_eqb_elem, Hall, list_elem_of_In, Hc.
Qed.

Lemma column_of_label df c : c ∈ df_columns df -> is_Some (column df c).
Proof.
  unfold column, df_columns. induction (df_data df) as [|x l IH]; intros Hc.
  - inversion Hc.
  - cbn [List.find map] in *. destruct (String.eqb_spec (fst x) c) as [E|Hne]; [eauto|].
    apply elem_of_cons in Hc as [->|Hc]; [congruence|]. apply IH, Hc.
Qed.

(** ** The negativity test *)

Lemma negative_b_spec v : negative_b v = true <-> negative v.
Proof. destruct v; simpl; try (split; [discriminate|tauto]); [apply Z.ltb_lt|tauto]. Qed.

Lemma existsb_values (f : PyValue -> bool) {A} (g : A -> PyValue) (vs : list A) :
  existsb (fun x => f (g x)) vs = existsb f (map g vs).
Proof. induction vs as [|x vs IH]; simpl; [reflexivity|]. rewrite IH. reflexivity. Qed.

Lemma existsb_false_none {A} (f : A -> bool) (l : list A) :
  existsb f l = false <-> forall x, x ∈ l -> f x = false.
Proof.
  induction l as [|a l IH]; simpl.
  - split; [intros _ x Hx; inversion Hx|reflexivity].
  - rewrite orb_false_iff, IH. split.
    + intros [Ha Hl] x Hx. apply elem_of_cons in Hx as [->|Hx]; auto.
    + intros Hall. split; [apply Hall; left|intros x Hx; apply Hall; right; exact Hx].
Qed.

Lemma existsb_true_some {A} (f : A -> bool) (l : list A) :
  existsb f l = true <-> exists x, x ∈ l /\ f x = true.
Proof.
  rewrite existsb_exists. split; intros (x & Hx & E); exists x; split; try exact E;
    apply list_elem_of_In, Hx.
Qed.

(** Whether a value of the series is negative. *)
Lemma any_negative s :
  existsb negative_b (values s) = true <-> has_negative_value s.
Proof.
  unfold has_negative_value. rewrite existsb_true_some.
  split; intros (v & Hv & E); exists v; (split; [exact Hv|]); apply negative_b_spec, E.
Qed.

Lemma none_negative s :
  existsb negative_b (values s) = false <-> no_negative_value s.
Proof.
  unfold no_negative_value. rewrite existsb_false_none.
  split; intros Hall v Hv.
  - intros Hn. apply negative_b_spec in Hn. rewrite (Hall v Hv) in Hn. discriminate.
  - destruct (negative_b v) eqn:E; [|reflexivity].
    exfalso. apply (Hall v Hv), negative_b_spec, E.
Qed.

Lemma has_text_spec s : has_text s = false <-> numeric_column s.
Proof.
  unfold numeric_column. destruct s as [vs|vs|vs|vs]; simpl.
  - split; [|reflexivity]. intros _ t Ht. apply list_elem_of_fmap in Ht as (x & E & _).
    discriminate.
  - split; [|reflexivity]. intros _ t Ht. apply list_elem_of_fmap in Ht as (x & E & _).
    discriminate.
  - split; [|reflexivity]. intros _ t Ht. apply list_elem_of_fmap in Ht as (x & E & _).
    discriminate.
  - rewrite existsb_false_none. split.
    + intros Hall t Ht. apply list_elem_of_fmap in Ht as (x & E & Hx).
      specialize (Hall x Hx). destruct x; [discriminate|discriminate].
    + intros Hall x Hx. destruct x as [t|]; [|reflexivity].
      exfalso. apply (Hall t). apply list_elem_of_fmap. exists (OStr t). split; [reflexivity|exact Hx].
Qed.

Section ValidatorFacts.
Context `{Libraries}.

Lemma lt0_any_computed s :
  lt0_any s = if has_text s then inl type_error_lt else inr (existsb negative_b (values s)).
Proof.
  destruct s as [vs|vs|vs|vs]; simpl.
  - rewrite <- existsb_values. reflexivity.
  - rewrite <- existsb_values. reflexivity.
  - f_equal. induction vs as [|b vs IH]; [reflexivity|]. simpl. exact IH.
  - destruct (existsb is_text vs) eqn:E; [reflexivity|]. f_equal.
    rewrite existsb_false_none in E. symmetry. apply existsb_false_none.
    intros v Hv. apply list_elem_of_fmap in Hv as (x & -> & Hx).
    specialize (E x Hx). destruct x; [discriminate|reflexivity].
Qed.

(** The three outcomes of the negativity test of the validator. *)
Lemma lt0_any_false s : lt0_any s = inr false <-> numeric_column s /\ no_negative_value s.
Proof.
  rewrite lt0_any_computed, <- has_text_spec, <- none_negative.
  destruct (has_text s), (existsb negative_b (values s)); split;
    try discriminate; try tauto; intros [? ?]; discriminate.
Qed.

Lemma lt0_any_true s : lt0_any s = inr true <-> numeric_column s /\ has_negative_value s.
Proof.
  rewrite lt0_any_computed, <- has_text_spec, <- any_negative.
  destruct (has_text s), (existsb negative_b (values s)); split;
    try discriminate; try tauto; intros [? ?]; discriminate.
Qed.


(** ** The validator *)

Lemma validate_upload_written (fs : Storage) path content :
  validate_upload (<[path := content]> fs) path =
    match read_csv content with
    | inl e => inl e
    | inr df =>
        if negb (issubset required_columns (df_columns df)) then
          inl ("Missing required columns. Found: " +:+ list_repr (df_columns df))
        else
          match column df "units_sold", column df "price" with
          | Some units_sold, Some price =>
              match lt0_any units_sold with
              | inl e => inl e
              | inr true => inl negative_values_message
              | inr false =>
                  match lt0_any price with
                  | inl e => inl e
                  | inr true => inl negative_values_message
                  | inr false => inr df
                  end
              end
          | _, _ => inl "KeyError"
          end
    end.
Proof. unfold validate_upload. rewrite lookup_insert_eq. reflexivity. Qed.

(** What the validator has checked of a frame it returns. *)
Lemma validate_upload_inr (fs : Storage) path df :
  validate_upload fs path = inr df ->
  exists content units price,
    fs !! path = Some content
    /\ read_csv content = inr df
    /\ has_required_columns df
    /\ column df "units_sold" = Some units
    /\ column df "price" = Some price
    /\ (numeric_column units /\ no_negative_value units)
    /\ (numeric_column price /\ no_negative_value price).
Proof.
  unfold validate_upload. destruct (fs !! path) as [content|]; [|discriminate].
  destruct (read_csv content) as [e|df'] eqn:R; [discriminate|].
  destruct (issubset required_columns (df_columns df')) eqn:E; simpl; [|discriminate].
  destruct (column df' "units_sold") as [units|] eqn:Eu; [|discriminate].
  destruct (column df' "price") as [price|] eqn:Ep; [|discriminate].
  destruct (lt0_any units) as [?|[|]] eqn:Lu; try discriminate.
  destruct (lt0_any price) as [?|[|]] eqn:Lp; try discriminate.
  intros Hv. inversion Hv; subst.
  exists content, units, price. repeat split; try assumption; try reflexivity.
  - apply issubset_required, E.
  - apply lt0_any_false in Lu. tauto.
  - apply lt0_any_false in Lu. tauto.
  - apply lt0_any_false in Lp. tauto.
  - apply lt0_any_false in Lp. tauto.
Qed.

Lemma validate_upload_columns (fs : Storage) path df :
  validate_upload fs path = inr df -> has_required_columns df.
Proof. intros Hv. apply validate_upload_inr in Hv as (? & ? & ? & ? & ? & ? & ?). assumption. Qed.

(** The validator accepts exactly the valid datasets. *)
Lemma validate_upload_valid (fs : Storage) path content :
  (exists df, validate_upload (<[path := content]> fs) path = inr df)
  <-> valid_dataset content.
Proof.
  split.
  - intros [df Hv]. apply validate_upload_inr in Hv
      as (content' & units & price & E & R & Hc & Hu & Hp & Hnu & Hnp).
    rewrite lookup_insert_eq in E. inversion E; subst.
    exists df, units, price. tauto.
  - intros (df & units & price & R & Hc & Hu & Hp & Hnu & Hnp). exists df.
    rewrite validate_upload_written, R.
    apply issubset_required in Hc. rewrite Hc. cbn [negb]. rewrite Hu, Hp.
    rewrite (proj2 (lt0_any_false units) Hnu), (proj2 (lt0_any_false price) Hnp).
    reflexivity.
Qed.

(** Whether the file of an upload can be written. *)
Lemma writable_test (fs : Storage) path :
  file_exists fs path || os_creatable path = true
  <-> is_Some (fs !! path) \/ os_creatable path = true.
Proof.
  unfold file_exists. rewrite orb_true_iff, bool_decide_eq_true. reflexivity.
Qed.

(** What an upload named [.csv] does once its file is written, by the
    outcome of the [try] block. *)
Lemma upload_csv_written fs user_id filename content :
  endswith filename ".csv" = true ->
  is_Some (fs !! user_file_path user_id filename)
    \/ os_creatable (user_file_path user_id filename) = true ->
  upload_csv fs user_id filename content =
    let file_path := user_file_path user_id filename in
    match validate_upload (<[file_path := content]> fs) file_path with
    | inl e => (delete file_path fs, HTTPException 400 ("CSV Validation Error: " +:+ e))
    | inr df =>
        match column df "product_id" with
        | Some product_id =>
            if forallb json_compliant (unique (values product_id)) then
              (<[file_path := content]> fs,
               Ok {| up_message := "CSV validated and saved successfully!";
                     up_filename := filename;
                     up_products := unique (values product_id) |})
            else (<[file_path := content]> fs, Unhandled)
        | None => (<[file_path := content]> fs, Unhandled)
        end
    end.
Proof.
  intros E W. apply writable_test in W. unfold upload_csv. rewrite E, W. cbn [negb].
  cbv zeta. destruct (validate_upload _ _); [|reflexivity].
  rewrite delete_insert_eq. reflexivity.
Qed.

Lemma upload_csv_not_written fs user_id filename content :
  endswith filename ".csv" = true ->
  ~ (is_Some (fs !! user_file_path user_id filename)
     \/ os_creatable (user_file_path user_id filename) = true) ->
  upload_csv fs user_id filename content = (fs, Unhandled).
Proof.
  intros E W. rewrite <- writable_test in W. unfold upload_csv. rewrite E. cbn [negb].
  destruct (file_exists _ _ || os_creatable _); [congruence|reflexivity].
Qed.

Lemma upload_csv_not_csv fs user_id filename content :
  endswith filename ".csv" = false ->
  upload_csv fs user_id filename content
  = (fs, HTTPException 400 "Invalid file type. Please upload a CSV file.").
Proof. intros E. unfold upload_csv. rewrite E. reflexivity. Qed.

(** The answers of an upload, with the storage each leaves. *)
Lemma upload_csv_cases fs user_id filename content :
  let file_path := user_file_path user_id filename in
  let r := upload_csv fs user_id filename content in
  (endswith filename ".csv" = false
   /\ r = (fs, HTTPException 400 "Invalid file type. Please upload a CSV file."))
  \/ (endswith filename ".csv" = true /\ r = (fs, Unhandled)
      /\ ~ (is_Some (fs !! file_path) \/ os_creatable file_path = true))
  \/ (endswith filename ".csv" = true
      /\ (is_Some (fs !! file_path) \/ os_creatable file_path = true)
      /\ ((exists e, validate_upload (<[file_path := content]> fs) file_path = inl e
           /\ r = (delete file_path fs, HTTPException 400 ("CSV Validation Error: " +:+ e)))
          \/ (exists df, validate_upload (<[file_path := content]> fs) file_path = inr df
              /\ ((exists resp, r = (<[file_path := content]> fs, Ok resp))
                  \/ r = (<[file_path := content]> fs, Unhandled))))).
Proof.
  intros file_path r. subst r.
  destruct (endswith filename ".csv") eqn:E.
  - right. destruct (file_exists fs file_path || os_creatable file_path) eqn:W.
    + right. apply writable_test in W. split; [reflexivity|]. split; [exact W|].
      rewrite (upload_csv_written _ _ _ _ E W). cbv zeta. fold file_path.
      destruct (validate_upload _ _) as [e|df]; [left; eauto|].
      right. exists df. split; [reflexivity|].
      destruct (column df "product_id") as [ids|]; [|right; reflexivity].
      destruct (forallb json_compliant _); [left; eauto|right; reflexivity].
    + left. split; [reflexivity|].
      assert (~ (is_Some (fs !! file_path) \/ os_creatable file_path = true)) as Hn.
      { rewrite <- writable_test. congruence. }
      split; [|exact Hn]. apply upload_csv_not_written; assumption.
  - left. split; [reflexivity|]. apply upload_csv_not_csv, E.
Qed.
End ValidatorFacts.

(** * The upload *)

Section UploadClaims.
Context `{Libraries}.



(** C10. An upload over a stored, valid dataset whose new content fails
    validation is refused with 400 and leaves no dataset under that name:
    the stored file is first overwritten and then deleted. *)
Theorem C10_failed_reupload_destroys_dataset
    fs user_id filename old old_df content e :
  let file_path := user_file_path user_id filename in
  endswith filename ".csv" = true ->
  fs !! file_path = Some old ->
  validate_upload fs file_path = inr old_df ->
  validate_upload (<[file_path := content]> fs) file_path = inl e ->
  exists fs',
    upload_csv fs user_id filename content =
      (fs', HTTPException 400 ("CSV Validation Error: " +:+ e))
    /\ fs' !! file_path = None
    /\ fs' = delete file_path fs
    /\ forall other, other <> file_path -> fs' !! other = fs !! other.
Proof.
  intros file_path Hname Hold Hvalid Hfail.
  exists (delete file_path fs).
  rewrite (upload_csv_written _ _ _ _ Hname) by (left; fold file_path; eauto).
  cbv zeta. fold file_path. rewrite Hfail.
  split; [reflexivity|]. split; [apply lookup_delete_eq|]. split; [reflexivity|].
  intros other Hne. apply lookup_delete_ne. congruence.
Qed.
End UploadClaims.

(** * The forecast *)

(** The positions of the rows of a product: where the cell of the
    [product_id] column is the text asked for. *)
Lemma matching_indices_elem ids product_id i :
  i ∈ matching_indices ids product_id <-> values ids !! i = Some (PStr product_id).
Proof.
  unfold matching_indices. rewrite list_elem_of_In, filter_In, in_seq. split.
  - intros [_ Hi]. destruct (values ids !! i) as [[t| | | | |]|]; try discriminate.
    apply String.eqb_eq in Hi. subst. reflexivity.
  - intros Hi. rewrite Hi, String.eqb_refl. split; [|reflexivity].
    apply lookup_lt_Some in Hi. lia.
Qed.

Lemma filter_seq_sorted (f : nat -> bool) k n : StronglySorted lt (List.filter f (seq k n)).
Proof.
  revert k. induction n as [|n IH]; intros k; [constructor|].
  cbn [seq List.filter]. destruct (f k); [|apply IH].
  constructor; [apply IH|]. apply List.Forall_forall. intros j Hj.
  apply filter_In in Hj as [Hj _]. apply in_seq in Hj. lia.
Qed.

Lemma matching_indices_sorted ids product_id :
  StronglySorted lt (matching_indices ids product_id).
Proof. apply filter_seq_sorted. Qed.

Section ForecastClaims.
Context `{Libraries}.

(** ** The insight *)


(** ** Requests that pass both checks *)

Lemma forecast_history_answers fs user_id product_id filename dates units :
  forecast_history fs user_id filename product_id dates units ->
  get_forecast fs user_id product_id filename
    = match prophet_forecast (forecast_call dates units) with
      | Some forecast => forecast_answer product_id dates units forecast
      | None => Unhandled
      end
  /\ export_forecast_csv fs user_id product_id filename
     = match prophet_forecast (forecast_call dates units) with
       | Some forecast => export_answer product_id forecast
       | None => Unhandled
       end.
Proof.
  intros (content & df & ids & date & all_units & E & R & I & D & U & Hn & T & ->).
  rewrite (get_forecast_stored _ _ _ _ _ _ _ E R I), (export_stored _ _ _ _ _ _ _ E R I).
  cbv zeta.
  destruct (Nat.eqb_spec (length (matching_indices ids product_id)) 0) as [?|_]; [lia|].
  destruct (Nat.ltb_spec (length (matching_indices ids product_id)) 30) as [?|_]; [lia|].
  unfold forecast_steps. rewrite D, U.
  cbn [fmap option_fmap option_map uncaught mbind Result_bind]. rewrite T.
  cbn [uncaught mbind Result_bind].
  destruct (prophet_forecast _); split; reflexivity.
Qed.

Lemma handler_Ok_history {A} fs user_id product_id filename content df ids
    (answer : _ -> _ -> _ -> Result A) a :
  fs !! user_file_path user_id filename = Some content ->
  read_csv content = inr df ->
  column df "product_id" = Some ids ->
  (let idx := matching_indices ids product_id in
   if (length idx =? 0)%nat then
     HTTPException 404 ("Product ID '" +:+ product_id +:+ "' not found.")
   else if (length idx <? 30)%nat then
     HTTPException 400 "Not enough data. A minimum of 30 data points is required."
   else forecast_steps df idx answer) = Ok a ->
  exists dates units forecast,
    forecast_history fs user_id filename product_id dates units
    /\ prophet_forecast (forecast_call dates units) = Some forecast
    /\ answer dates units forecast = Ok a.
Proof.
  intros E R I. cbv zeta.
  destruct (Nat.eqb_spec (length (matching_indices ids product_id)) 0) as [?|Hn0];
    [discriminate|].
  destruct (Nat.ltb_spec (length (matching_indices ids product_id)) 30) as [?|Hn];
    [discriminate|].
  intros Hs. apply forecast_steps_Ok in Hs as (date & units & dates & forecast & D & U & T & F & Ha).
  exists dates, (series_at (matching_indices ids product_id) units), forecast.
  split; [|split; assumption].
  exists content, df, ids, date, units. repeat split; assumption.
Qed.

(** A forecast that succeeds has a history, a forecast of it, and the answer
    made of both. *)
Lemma get_forecast_Ok fs user_id product_id filename resp :
  get_forecast fs user_id product_id filename = Ok resp ->
  exists dates units forecast,
    forecast_history fs user_id filename product_id dates units
    /\ prophet_forecast (forecast_call dates units) = Some forecast
    /\ forecast_answer product_id dates units forecast = Ok resp.
Proof.
  intros E. pose proof E as E'. unfold get_forecast in E'.
  apply bind_Ok in E' as (u & Hg & E'). apply guard_Ok in Hg.
  apply bind_Ok in E' as (df & Hl & E'). apply load_csv_Ok in Hl as (content & Hc & R).
  apply bind_Ok in E' as (ids & I & _). apply uncaught_Ok in I.
  rewrite (get_forecast_stored _ _ _ _ _ _ _ Hc R I) in E.
  eapply handler_Ok_history; eassumption.
Qed.

Lemma forecast_answer_Ok product_id dates units forecast resp :
  forecast_answer product_id dates units forecast = Ok resp ->
  exists insight,
    generate_insight format_0f series_mean product_id units forecast = Some insight
    /\ resp = forecast_response product_id insight dates units forecast
    /\ forecast_compliant resp = true.
Proof.
  unfold forecast_answer.
  destruct (generate_insight _ _ _ _ _) as [insight|]; [|discriminate].
  cbv zeta. destruct (forecast_compliant _) eqn:E; [|discriminate].
  intros E'. inversion E'; subst. eauto.
Qed.

(** The two lists of a forecast response, and how the dates of the second
    are written. *)
Lemma forecast_response_rows fs user_id product_id filename resp :
  get_forecast fs user_id product_id filename = Ok resp ->
  exists dates units forecast,
    forecast_history fs user_id filename product_id dates units
    /\ prophet_forecast (forecast_call dates units) = Some forecast
    /\ historical_data resp = map history_record (history (forecast_call dates units))
    /\ forecast_data resp = map forecast_record (last_rows 30 forecast)
    /\ map written_date (forecast_data resp)
       = map (fun r => Some (isoformat (ds r))) (last_rows 30 forecast).
Proof.
  intros E. apply get_forecast_Ok in E as (dates & units & forecast & Hh & Hf & Ha).
  apply forecast_answer_Ok in Ha as (insight & _ & -> & _).
  exists dates, units, forecast. split; [exact Hh|]. split; [exact Hf|].
  split; [reflexivity|]. split; [reflexivity|].
  cbn [forecast_response forecast_data]. rewrite map_map. reflexivity.
Qed.



(** C8, as the code has it.  For a request that passes both checks, both
    handlers hand to the forecasting library the dates and the [units_sold]
    of the rows of the product in the order of the file, ask for daily
    seasonality and for thirty periods, and answer by what the run gives. *)
Theorem C8_history_in_file_order
    fs user_id product_id filename content df ids date units_sold dates :
  fs !! user_file_path user_id filename = Some content ->
  read_csv content = inr df ->
  column df "product_id" = Some ids ->
  column df "date" = Some date ->
  column df "units_sold" = Some units_sold ->
  let idx := matching_indices ids product_id in
  (30 <= length idx)%nat ->
  to_datetime (series_at idx date) = Some dates ->
  let call := {| daily_seasonality := true;
                 history_ds := dates;
                 history_y := series_at idx units_sold;
                 periods := 30 |} in
  StronglySorted lt idx
  /\ (forall i, i ∈ idx <-> values ids !! i = Some (PStr product_id))
  /\ get_forecast fs user_id product_id filename
     = match prophet_forecast call with
       | Some forecast => forecast_answer product_id dates (series_at idx units_sold) forecast
       | None => Unhandled
       end
  /\ export_forecast_csv fs user_id product_id filename
     = match prophet_forecast call with
       | Some forecast => export_answer product_id forecast
       | None => Unhandled
       end.
Proof.
  intros E R I D U idx Hn T call. split.
  - apply matching_indices_sorted.
  - split; [intros i; apply matching_indices_elem|]. split.
    + apply (forecast_history_answers fs user_id product_id filename dates
               (series_at idx units_sold)).
      exists content, df, ids, date, units_sold. repeat split; assumption.
    + apply (forecast_history_answers fs user_id product_id filename dates
               (series_at idx units_sold)).
      exists content, df, ids, date, units_sold. repeat split; assumption.
Qed.
End ForecastClaims.

(** ** Reading an export back *)

Lemma has_char_app c (a b : string) : has_char c (a +:+ b) = has_char c a || has_char c b.
Proof.
  induction a as [|x a IH]; simpl; [reflexivity|]. rewrite IH. apply orb_assoc.
Qed.







Lemma pretty_N_char_digit c x :
  (forall d, (d < 10)%nat -> Ascii.eqb (ascii_of_nat (48 + d)) c = false) ->
  Ascii.eqb (pretty_N_char x) c = false.
Proof.
  intros Hc. unfold pretty_N_char.
  repeat case_match;
    first [ apply (Hc 0%nat); lia | apply (Hc 1%nat); lia | apply (Hc 2%nat); lia
          | apply (Hc 3%nat); lia | apply (Hc 4%nat); lia | apply (Hc 5%nat); lia
          | apply (Hc 6%nat); lia | apply (Hc 7%nat); lia | apply (Hc 8%nat); lia
          | apply (Hc 9%nat); lia ].
Qed.

Lemma pretty_N_go_digits c x s :
  (forall d, (d < 10)%nat -> Ascii.eqb (ascii_of_nat (48 + d)) c = false) ->
  has_char c s = false -> has_char c (pretty_N_go x s) = false.
Proof.
  intros Hc. revert s. induction (N.lt_wf_0 x) as [x _ IH]; intros s Hs.
  assert (x = 0 \/ 0 < x)%N as [->|Hx] by lia.
  - rewrite pretty_N_go_0. exact Hs.
  - rewrite pretty_N_go_step by exact Hx. apply IH.
    + apply N.div_lt; lia.
    + simpl. rewrite (pretty_N_char_digit c _ Hc), Hs. reflexivity.
Qed.

(** The decimal text of a natural number holds digits only. *)
Lemma pretty_nat_digits c (n : nat) :
  (forall d, (d < 10)%nat -> Ascii.eqb (ascii_of_nat (48 + d)) c = false) ->
  has_char c (pretty n) = false.
Proof.
  intros Hc. unfold pretty, pretty_nat, pretty, pretty_N.
  destruct (decide (N.of_nat n = 0%N)).
  - simpl. rewrite orb_false_r. exact (Hc 0%nat ltac:(lia)).
  - apply pretty_N_go_digits; [exact Hc|reflexivity].
Qed.


(** A date written as [YYYY-MM-DD] holds digits and dashes only. *)
Lemma strftime_ymd_chars c t :
  (forall d, (d < 10)%nat -> Ascii.eqb (ascii_of_nat (48 + d)) c = false) ->
  Ascii.eqb "-"%char c = false ->
  has_char c (strftime_ymd t) = false.
Proof.
  intros Hd Hdash.
  assert (Hzero : Ascii.eqb "0"%char c = false) by exact (Hd 0%nat ltac:(lia)).
  assert (Hp2 : forall n, has_char c (pad2 n) = false).
  { intros n. unfold pad2. destruct (n <? 10)%nat.
    - rewrite has_char_app, (pretty_nat_digits c n Hd). cbn [has_char].
      rewrite Hzero. reflexivity.
    - apply pretty_nat_digits, Hd. }
  assert (Hp4 : forall n, has_char c (pad4 n) = false).
  { intros n. unfold pad4.
    repeat (match goal with |- context [if ?b then _ else _] => destruct b end);
      rewrite ?has_char_app, (pretty_nat_digits c n Hd); cbn [has_char];
      rewrite ?Hzero; reflexivity. }
  unfold strftime_ymd. rewrite !has_char_app, Hp4, !Hp2. cbn [has_char].
  rewrite Hdash. reflexivity.
Qed.


(** The ISO form of a timestamp is never a date of the form [YYYY-MM-DD]:
    it goes on with the time of day. *)
Lemma isoformat_not_ymd t t' : isoformat t <> strftime_ymd t'.
Proof.
  intros E.
  assert (has_char "T"%char (isoformat t) = true) as H1.
  { unfold isoformat. rewrite has_char_app. apply orb_true_iff. right. reflexivity. }
  assert (has_char "T"%char (strftime_ymd t') = false) as H2.
  { apply strftime_ymd_chars; [|reflexivity].
    intros d Hd. do 10 (destruct d as [|d]; [reflexivity|]). lia. }
  congruence.
Qed.


(** ** Dates read back *)











Section ExportClaims.
Context `{Libraries}.





Section ReadBack.
Variable float_parse : string -> option float.



End ReadBack.

End ExportClaims.

(** * The historical analysis *)






Section AnalysisClaims.
Context `{Libraries}.












End AnalysisClaims.

(** * Further properties of the pipeline *)

(** ** Paths of the upload directory *)

Lemma pretty_N_digits c (x : N) :
  (forall d, (d < 10)%nat -> Ascii.eqb (ascii_of_nat (48 + d)) c = false) ->
  has_char c (pretty x) = false.
Proof.
  intros Hc. unfold pretty, pretty_N. destruct (decide (x = 0%N)).
  - simpl. rewrite orb_false_r. exact (Hc 0%nat ltac:(lia)).
  - apply pretty_N_go_digits; [exact Hc|reflexivity].
Qed.

(** The decimal text of an integer holds no underscore. *)
Lemma pretty_Z_no_underscore (z : Z) : has_char "_"%char (pretty z) = false.
Proof.
  assert (Hd : forall d, (d < 10)%nat ->
            Ascii.eqb (ascii_of_nat (48 + d)) "_"%char = false).
  { intros d Hd. do 10 (destruct d as [|d]; [reflexivity|]). lia. }
  destruct z as [|p|p].
  - reflexivity.
  - apply (pretty_N_digits _ (Npos p) Hd).
  - change (pretty (Zneg p)) with ("-" +:+ pretty (Npos p)).
    rewrite has_char_app, (pretty_N_digits _ (Npos p) Hd). reflexivity.
Qed.

(** Two texts that are cut at their first separator are cut alike. *)
Lemma app_separator_inj c (a b x y : string) :
  has_char c a = false -> has_char c b = false ->
  a +:+ String c x = b +:+ String c y -> a = b /\ x = y.
Proof.
  revert b. induction a as [|a0 a IH]; intros [|b0 b]; simpl; intros Ha Hb E.
  - inversion E. auto.
  - inversion E; subst. rewrite Ascii.eqb_refl in Hb. discriminate.
  - inversion E; subst. rewrite Ascii.eqb_refl in Ha. discriminate.
  - apply orb_false_iff in Ha as [_ Ha]. apply orb_false_iff in Hb as [_ Hb].
    inversion E; subst. destruct (IH b Ha Hb ltac:(assumption)) as [-> ->]. auto.
Qed.

Lemma user_file_path_text user_id filename :
  user_file_path user_id filename = "./uploads/user_" +:+ pretty user_id +:+ "_" +:+ filename.
Proof. reflexivity. Qed.

(** The path of an upload gives back the text of the user id and the file
    name. *)
Lemma user_file_path_parts u1 f1 u2 f2 :
  user_file_path u1 f1 = user_file_path u2 f2 -> pretty u1 = pretty u2 /\ f1 = f2.
Proof.
  rewrite !user_file_path_text. intros E.
  apply String.app_inj in E.
  apply app_separator_inj in E as [E ->]; try apply pretty_Z_no_underscore.
  split; [exact E | reflexivity].
Qed.

(** X1. Two uploads are stored under the same path only when both the user
    and the file name are the same. *)
Theorem user_file_path_inj u1 f1 u2 f2 :
  user_file_path u1 f1 = user_file_path u2 f2 -> u1 = u2 /\ f1 = f2.
Proof.
  intros E. apply user_file_path_parts in E as [E ->].
  split; [|reflexivity]. apply (inj pretty). exact E.
Qed.

Section StoreFacts.
Context `{Libraries}.

(** The handlers that read a dataset look at nothing but its file. *)
Lemma readers_depend_on_file (fs fs' : Storage) user_id product_id filename :
  fs' !! user_file_path user_id filename = fs !! user_file_path user_id filename ->
  get_historical_analysis fs' user_id filename = get_historical_analysis fs user_id filename
  /\ get_forecast fs' user_id product_id filename
     = get_forecast fs user_id product_id filename
  /\ export_forecast_csv fs' user_id product_id filename
     = export_forecast_csv fs user_id product_id filename.
Proof.
  intros E.
  unfold get_historical_analysis, get_forecast, export_forecast_csv, file_exists, load_csv.
  rewrite E. auto.
Qed.

(** The storage after an upload differs from the storage before it at most
    at the path of the upload. *)
Lemma upload_csv_elsewhere fs user_id filename content path :
  path <> user_file_path user_id filename ->
  fst (upload_csv fs user_id filename content) !! path = fs !! path.
Proof.
  intros Hne.
  destruct (upload_csv_cases fs user_id filename content)
    as [[_ R]|[(_ & R & _)|(_ & _ & [(e & _ & R)|(df & _ & [[resp R]|R])])]];
    rewrite R; cbn [fst]; try reflexivity.
  - apply lookup_delete_ne. congruence.
  - apply lookup_insert_ne. congruence.
  - apply lookup_insert_ne. congruence.
Qed.

(** X2. An upload changes nothing for another user, nor for another file
    of the same user: analysis, forecast and export of every other
    (user, file name) answer as before. *)
Theorem upload_leaves_other_datasets fs user_id filename content v g product_id :
  user_id <> v \/ filename <> g ->
  get_historical_analysis (fst (upload_csv fs user_id filename content)) v g
    = get_historical_analysis fs v g
  /\ get_forecast (fst (upload_csv fs user_id filename content)) v product_id g
     = get_forecast fs v product_id g
  /\ export_forecast_csv (fst (upload_csv fs user_id filename content)) v product_id g
     = export_forecast_csv fs v product_id g.
Proof.
  intros Hne. apply readers_depend_on_file. apply upload_csv_elsewhere.
  intros E. apply user_file_path_parts in E as [E ->]. apply (inj pretty) in E.
  destruct Hne; congruence.
Qed.

(** Every step an upload has passed when it succeeds. *)
Lemma upload_csv_Ok fs user_id filename content fs' resp :
  upload_csv fs user_id filename content = (fs', Ok resp) ->
  exists df ids,
    endswith filename ".csv" = true
    /\ fs' = <[user_file_path user_id filename := content]> fs
    /\ validate_upload fs' (user_file_path user_id filename) = inr df
    /\ read_csv content = inr df
    /\ column df "product_id" = Some ids
    /\ resp = {| up_message := "CSV validated and saved successfully!";
                 up_filename := filename;
                 up_products := unique (values ids) |}.
Proof.
  intros E.
  destruct (endswith filename ".csv") eqn:Hname;
    [|rewrite (upload_csv_not_csv _ _ _ _ Hname) in E; discriminate].
  destruct (file_exists fs (user_file_path user_id filename)
            || os_creatable (user_file_path user_id filename)) eqn:W.
  2:{ rewrite upload_csv_not_written in E; [discriminate|exact Hname|].
      rewrite <- writable_test. congruence. }
  apply writable_test in W. rewrite (upload_csv_written _ _ _ _ Hname W) in E.
  cbv zeta in E.
  destruct (validate_upload _ _) as [e|df] eqn:Hv; [discriminate|].
  destruct (column df "product_id") as [ids|] eqn:Hids; [|discriminate].
  destruct (forallb json_compliant _); [|discriminate].
  inversion E; subst. exists df, ids.
  repeat split; try assumption.
  apply validate_upload_inr in Hv as (c & _ & _ & Hc & Hr & _).
  rewrite lookup_insert_eq in Hc. inversion Hc; subst. exact Hr.
Qed.

(** Every way an upload under a [.csv] name is refused. *)
Lemma upload_csv_refused fs user_id filename content fs' status_code detail :
  endswith filename ".csv" = true ->
  upload_csv fs user_id filename content = (fs', HTTPException status_code detail) ->
  fs' = delete (user_file_path user_id filename) fs /\ status_code = 400%nat.
Proof.
  intros Hname E.
  destruct (upload_csv_cases fs user_id filename content)
    as [[Hn _]|[(_ & R & _)|(_ & _ & [(e & _ & R)|(df & _ & [[resp R]|R])])]];
    [congruence|cbv zeta in R; rewrite R in E; inversion E; subst..].
  auto.
Qed.

(** X3. After an upload is refused for its content, the three readers all
    answer that the file is not found, whatever was stored under the name
    before. *)
Theorem refused_upload_then_not_found
    fs user_id filename content fs' status_code detail product_id :
  endswith filename ".csv" = true ->
  upload_csv fs user_id filename content = (fs', HTTPException status_code detail) ->
  get_historical_analysis fs' user_id filename
    = HTTPException 404 "File not found. Please upload it again."
  /\ get_forecast fs' user_id product_id filename
    = HTTPException 404 "File not found. Please upload it again."
  /\ export_forecast_csv fs' user_id product_id filename
    = HTTPException 404 "File not found. Please upload it again.".
Proof.
  intros Hname E. apply upload_csv_refused in E as [-> _]; [|exact Hname].
  apply readers_not_found, lookup_delete_eq.
Qed.

(** X4. Sending the same upload again changes nothing: the storage and the
    answer are those of the first time.  The file of the upload, when it is
    stored already, is one that the directory can hold. *)
Theorem upload_csv_idempotent fs user_id filename content :
  path_in_directory fs (user_file_path user_id filename) ->
  upload_csv (fst (upload_csv fs user_id filename content)) user_id filename content
  = upload_csv fs user_id filename content.
Proof.
  intros Hdir.
  destruct (upload_csv_cases fs user_id filename content)
    as [[Hn R]|[(Hn & R & W)|(Hn & W & [(e & Hv & R)|(df & Hv & Hr)])]];
    cbv zeta in *.
  - rewrite R. cbn [fst]. exact R.
  - rewrite R. cbn [fst]. exact R.
  - rewrite R. cbn [fst].
    assert (os_creatable (user_file_path user_id filename) = true) as Hc.
    { destruct W as [W|W]; [apply Hdir, W|exact W]. }
    rewrite (upload_csv_written (delete _ fs) _ _ _ Hn) by (right; exact Hc).
    cbv zeta. rewrite validate_upload_written in *. rewrite Hv.
    rewrite delete_delete_eq. reflexivity.
  - assert (fst (upload_csv fs user_id filename content)
            = <[user_file_path user_id filename := content]> fs) as ->.
    { destruct Hr as [[resp R]|R]; rewrite R; reflexivity. }
    rewrite (upload_csv_written (<[_ := _]> fs) _ _ _ Hn)
      by (left; rewrite lookup_insert_eq; eauto).
    rewrite (upload_csv_written fs _ _ _ Hn W). cbv zeta.
    rewrite !validate_upload_written in *. rewrite Hv, insert_insert_eq. reflexivity.
Qed.

(** Uploads keep the stored files at paths that the directory can hold. *)
Lemma upload_csv_keeps_paths fs user_id filename content :
  (forall path, path_in_directory fs path) ->
  forall path, path_in_directory (fst (upload_csv fs user_id filename content)) path.
Proof.
  intros Hfs path. unfold path_in_directory in *.
  destruct (upload_csv_cases fs user_id filename content)
    as [[_ R]|[(_ & R & _)|(_ & W & [(e & _ & R)|(df & _ & Hr)])]];
    cbv zeta in *.
  - rewrite R. apply Hfs.
  - rewrite R. apply Hfs.
  - rewrite R. cbn [fst]. intros [c Hc]. apply lookup_delete_Some in Hc as [_ Hc].
    apply Hfs. eauto.
  - assert (fst (upload_csv fs user_id filename content)
            = <[user_file_path user_id filename := content]> fs) as ->.
    { destruct Hr as [[resp R]|R]; rewrite R; reflexivity. }
    destruct (decide (path = user_file_path user_id filename)) as [->|Hne].
    + intros _. destruct W as [W|W]; [apply Hfs, W|exact W].
    + rewrite lookup_insert_ne by congruence. apply Hfs.
Qed.

(** X5. Uploads keep the upload directory valid: when every stored file is
    a dataset the validator accepts, so is every file stored after any
    upload, accepted or refused. *)
Theorem upload_csv_keeps_storage_valid fs user_id filename content :
  valid_storage fs -> valid_storage (fst (upload_csv fs user_id filename content)).
Proof.
  intros Hfs path c.
  destruct (upload_csv_cases fs user_id filename content)
    as [[_ R]|[(_ & R & _)|(_ & W & [(e & _ & R)|(df & Hv & Hr)])]];
    cbv zeta in *.
  - rewrite R. apply Hfs.
  - rewrite R. apply Hfs.
  - rewrite R. cbn [fst]. intros Hc. apply lookup_delete_Some in Hc as [_ Hc].
    eapply Hfs, Hc.
  - assert (fst (upload_csv fs user_id filename content)
            = <[user_file_path user_id filename := content]> fs) as ->.
    { destruct Hr as [[resp R]|R]; rewrite R; reflexivity. }
    destruct (decide (path = user_file_path user_id filename)) as [->|Hne].
    + rewrite lookup_insert_eq. intros Hc. inversion Hc; subst.
      apply (validate_upload_valid fs (user_file_path user_id filename)). eauto.
    + rewrite lookup_insert_ne by congruence. apply Hfs.
Qed.
End StoreFacts.

(** ** Forecast and export side by side *)

Section ReaderFacts.
Context `{Libraries}.

Lemma forecast_answer_cases product_id dates units forecast :
  (exists resp, forecast_answer product_id dates units forecast = Ok resp)
  \/ forecast_answer product_id dates units forecast = Unhandled.
Proof.
  unfold forecast_answer. destruct (generate_insight _ _ _ _ _); [|right; reflexivity].
  cbv zeta. destruct (forecast_compliant _); [left; eauto|right; reflexivity].
Qed.

(** How the two handlers answer one request. *)
Lemma handlers_cases fs user_id product_id filename :
  let forecast := get_forecast fs user_id product_id filename in
  let export := export_forecast_csv fs user_id product_id filename in
  (forecast = HTTPException 404 "File not found. Please upload it again."
   /\ export = HTTPException 404 "File not found. Please upload it again.")
  \/ (forecast = Unhandled /\ export = Unhandled)
  \/ (exists content df ids,
        fs !! user_file_path user_id filename = Some content
        /\ read_csv content = inr df
        /\ column df "product_id" = Some ids
        /\ ((length (matching_indices ids product_id) = 0%nat
             /\ forecast = HTTPException 404 ("Product ID '" +:+ product_id +:+ "' not found.")
             /\ export = HTTPException 404 ("Product ID '" +:+ product_id +:+ "' not found."))
            \/ ((0 < length (matching_indices ids product_id) < 30)%nat
                /\ forecast = HTTPException 400
                     "Not enough data. A minimum of 30 data points is required."
                /\ export = HTTPException 400 "Not enough data to export.")
            \/ (exists dates units rows,
                  forecast_history fs user_id filename product_id dates units
                  /\ prophet_forecast (forecast_call dates units) = Some rows
                  /\ forecast = forecast_answer product_id dates units rows
                  /\ export = export_answer product_id rows))).
Proof.
  intros forecast export. subst forecast export.
  destruct (fs !! user_file_path user_id filename) as [content|] eqn:E.
  2:{ left. destruct (readers_not_found fs user_id product_id filename E) as (_ & ? & ?).
      split; assumption. }
  right.
  destruct (read_csv content) as [e|df] eqn:R.
  { left. apply (readers_unreadable fs user_id product_id filename content E).
    intros df Hdf. congruence. }
  destruct (column df "product_id") as [ids|] eqn:I.
  2:{ left. apply (readers_unreadable fs user_id product_id filename content E).
      intros df' Hdf. congruence. }
  rewrite (get_forecast_stored _ _ _ _ _ _ _ E R I), (export_stored _ _ _ _ _ _ _ E R I).
  cbv zeta.
  destruct (Nat.eqb_spec (length (matching_indices ids product_id)) 0) as [Hz|Hz].
  { right. exists content, df, ids. repeat split; try assumption. left. auto. }
  destruct (Nat.ltb_spec (length (matching_indices ids product_id)) 30) as [Hn|Hn].
  { right. exists content, df, ids. repeat split; try assumption.
    right. left. split; [lia|]. auto. }
  unfold forecast_steps.
  destruct (column df "date") as [date|] eqn:D; [|left; split; reflexivity].
  destruct (column df "units_sold") as [units|] eqn:U; [|left; split; reflexivity].
  cbn [fmap option_fmap option_map uncaught mbind Result_bind].
  destruct (to_datetime _) as [dates|] eqn:T; [|left; split; reflexivity].
  cbn [uncaught mbind Result_bind].
  destruct (prophet_forecast _) as [rows|] eqn:F; [|left; split; reflexivity].
  right. exists content, df, ids. repeat split; try assumption.
  right. right. exists dates, (series_at (matching_indices ids product_id) units), rows.
  split; [|split; [exact F|split; reflexivity]].
  exists content, df, ids, date, units. repeat split; assumption.
Qed.

(** X6. The export refuses what the forecast refuses: an HTTP error of the
    one is an HTTP error of the same status of the other, with the same
    detail when the status is 404; and for a product id that has a latin-1
    encoding and makes a header the server sends, an uncaught exception of
    the export is one of the forecast. *)
Theorem export_agrees_with_forecast fs user_id product_id filename :
  (forall status_code detail,
     export_forecast_csv fs user_id product_id filename = HTTPException status_code detail ->
     exists detail',
       get_forecast fs user_id product_id filename = HTTPException status_code detail'
       /\ (status_code = 404%nat -> detail' = detail))
  /\ (forall status_code detail,
        get_forecast fs user_id product_id filename = HTTPException status_code detail ->
        exists detail',
          export_forecast_csv fs user_id product_id filename
            = HTTPException status_code detail'
          /\ (status_code = 404%nat -> detail' = detail))
  /\ (latin_1 product_id = true ->
      header_sendable (content_disposition product_id) = true ->
      export_forecast_csv fs user_id product_id filename = Unhandled ->
      get_forecast fs user_id product_id filename = Unhandled).
Proof.
  destruct (handlers_cases fs user_id product_id filename)
    as [[Ef Ee]|[[Ef Ee]|(content & df & ids & _ & _ & _ &
          [(_ & Ef & Ee)|[(_ & Ef & Ee)|(dates & units & rows & _ & _ & Ef & Ee)]])]];
    cbv zeta in Ef, Ee; rewrite Ef, Ee.
  - split; [|split]; [intros s d E; inversion E; subst; eexists; split;
                      [reflexivity|congruence]..|congruence].
  - split; [|split]; [intros s d E; inversion E..|reflexivity].
  - split; [|split]; [intros s d E; inversion E; subst; eexists; split;
                      [reflexivity|congruence]..|congruence].
  - split; [|split]; [intros s d E; inversion E; subst; eexists; split;
                      [reflexivity|congruence]..|congruence].
  - split; [|split].
    + intros s d. unfold export_answer.
      destruct (latin_1 product_id && header_sendable _); discriminate.
    + intros s d E.
      destruct (forecast_answer_cases product_id dates units rows) as [[resp R]|R];
        rewrite R in E; discriminate.
    + intros Hl Hs. unfold export_answer. rewrite Hl, Hs. discriminate.
Qed.

(** X7. Where the forecast succeeds, the export succeeds when the product
    id has a latin-1 encoding and makes a header the server sends, and
    fails with an uncaught exception when the product id has no latin-1
    encoding. *)
Theorem forecast_succeeds_with_export fs user_id product_id filename resp :
  get_forecast fs user_id product_id filename = Ok resp ->
  (latin_1 product_id = true ->
   header_sendable (content_disposition product_id) = true ->
   exists stream, export_forecast_csv fs user_id product_id filename = Ok stream)
  /\ (latin_1 product_id = false ->
      export_forecast_csv fs user_id product_id filename = Unhandled).
Proof.
  intros E.
  destruct (handlers_cases fs user_id product_id filename)
    as [[R _]|[[R _]|(content & df & ids & _ & _ & _ &
          [(_ & R & _)|[(_ & R & _)|(dates & units & rows & _ & _ & _ & R)]])]];
    cbv zeta in R; try (rewrite R in E; discriminate).
  rewrite R. unfold export_answer. split.
  - intros -> ->. eauto.
  - intros ->. reflexivity.
Qed.

(** A text is among the distinct values of a column exactly when some row
    holds it. *)
Lemma unique_text_elem s (v : string) : PStr v ∈ unique s <-> PStr v ∈ s.
Proof.
  destruct (unique_distinct_values s) as (H1 & H2 & _). split; [apply H1|].
  intros Hv. destruct (H2 _ Hv) as (c & Hc & E).
  destruct c as [t| | | | |]; simpl in E; try discriminate.
  apply String.eqb_eq in E. subst. exact Hc.
Qed.

(** X8. After a successful upload, the product ids the upload has listed
    are exactly those for which a forecast request does not answer that the
    product is not found. *)
Theorem listed_products_are_found fs user_id filename content fs' resp product_id :
  upload_csv fs user_id filename content = (fs', Ok resp) ->
  PStr product_id ∈ up_products resp
  <-> get_forecast fs' user_id product_id filename
      <> HTTPException 404 ("Product ID '" +:+ product_id +:+ "' not found.").
Proof.
  intros E. apply upload_csv_Ok in E as (df & ids & _ & -> & _ & Hread & Hids & ->).
  cbn [up_products]. rewrite unique_text_elem.
  rewrite (get_forecast_stored _ _ _ _ _ _ _ (lookup_insert_eq _ _ _) Hread Hids).
  cbv zeta.
  assert (PStr product_id ∈ values ids
          <-> length (matching_indices ids product_id) <> 0%nat) as ->.
  { rewrite list_elem_of_lookup. split.
    - intros [i Hi]. apply matching_indices_elem in Hi.
      destruct (matching_indices ids product_id); [inversion Hi|discriminate].
    - intros Hn. destruct (matching_indices ids product_id) as [|i l] eqn:Ei;
        [exfalso; apply Hn; reflexivity|].
      exists i. apply matching_indices_elem. rewrite Ei. left. }
  destruct (Nat.eqb_spec (length (matching_indices ids product_id)) 0) as [Hz|Hz].
  - split; [intros Hn; exfalso; apply Hn, Hz|].
    intros Hne. exfalso. apply Hne. reflexivity.
  - split; [|intros _; exact Hz]. intros _.
    destruct (length (matching_indices ids product_id) <? 30)%nat; [discriminate|].
    unfold forecast_steps.
    destruct (column df "date"); [|discriminate].
    destruct (column df "units_sold"); [|discriminate].
    cbn [fmap option_fmap option_map uncaught mbind Result_bind].
    destruct (to_datetime _); [|discriminate].
    cbn [uncaught mbind Result_bind].
    destruct (prophet_forecast _) as [rows|]; [|discriminate].
    cbn [uncaught mbind Result_bind].
    match goal with
    | |- forecast_answer ?p ?d ?u ?r <> _ =>
        destruct (forecast_answer_cases p d u r) as [[resp R]|R]
    end; rewrite R; discriminate.
Qed.
End ReaderFacts.

(** ** Reading the trend off the two averages *)

(** X12. With no history to compare against (the historical average is
    undefined or zero) the insight never reports a downward or a modest
    trend: it is strongly upward when the forecast average is positive and
    stable otherwise. *)
Theorem trend_without_history h f :
  undefined_or_zero h ->
  (above f 0 -> trend_of (change_percent h f) = StrongUpward)
  /\ (~ above f 0 -> trend_of (change_percent h f) = Stable).
Proof.
  intros Hh. apply undefined_or_zero_test in Hh. unfold change_percent, above.
  rewrite Hh. split; intros Hf.
  - rewrite Hf. reflexivity.
  - destruct (0 <? f)%float; [congruence|reflexivity].
Qed.

(** * The claims on concrete files *)

Lemma Sorted_first_two {A} (R : A -> A -> Prop) a b l : Sorted R (a :: b :: l) -> R a b.
Proof. intros S. inversion S as [|? ? _ Hd]. inversion Hd. assumption. Qed.

Section Concrete.
Import Examples.
#[local] Existing Instance libs.








(** C10 on a stored example file overwritten by a file with a negative
    price. *)
Lemma C10_witness :
  exists fs',
    upload_csv (store "sales.csv" small_sales) 1 "sales.csv" (csv_text negative_price) =
      (fs', HTTPException 400
              ("CSV Validation Error: "
                 +:+ "'units_sold' and 'price' cannot contain negative values."))
    /\ fs' !! user_file_path 1 "sales.csv" = None
    /\ fs' = delete (user_file_path 1 "sales.csv") (store "sales.csv" small_sales)
    /\ forall other, other <> user_file_path 1 "sales.csv" ->
         fs' !! other = store "sales.csv" small_sales !! other.
Proof.
  refine (C10_failed_reupload_destroys_dataset
            (store "sales.csv" small_sales) 1 "sales.csv"
            (csv_text small_sales) small_sales (csv_text negative_price)
            negative_values_message _ _ _ _).
  - vm_compute. reflexivity.
  - vm_compute. reflexivity.
  - vm_compute. reflexivity.
  - vm_compute. reflexivity.
Defined.






(** C7 on the code.  Every forecast response lists the history handed to
    the forecasting library and the last thirty rows of its output, and the
    date of each of these rows goes out as the timestamp the library gave,
    which the JSON writer writes in ISO form with the time of day, never as
    [YYYY-MM-DD].  On thirty days of January the first forecast row is dated
    [2024-01-31T00:00:00], where the export of the same forecast writes
    [2024-01-31]. *)
Theorem C7_forecast_dates_not_formatted :
  (forall (L : Libraries) fs user_id product_id filename resp,
     @get_forecast L fs user_id product_id filename = Ok resp ->
     exists dates units forecast,
       @forecast_history L fs user_id filename product_id dates units
       /\ @prophet_forecast L (forecast_call dates units) = Some forecast
       /\ historical_data resp = map history_record (history (forecast_call dates units))
       /\ forecast_data resp = map forecast_record (last_rows 30 forecast)
       /\ map written_date (forecast_data resp)
          = map (fun r => Some (isoformat (ds r))) (last_rows 30 forecast)
       /\ Forall (fun d => forall t, written_date d <> Some (strftime_ymd t))
            (forecast_data resp))
  /\ (exists resp stream,
        get_forecast (store "sales.csv" month_sales) 1 "A" "sales.csv" = Ok resp
        /\ export_forecast_csv (store "sales.csv" month_sales) 1 "A" "sales.csv" = Ok stream
        /\ length (forecast_data resp) = 30%nat
        /\ map written_date (firstn 2 (forecast_data resp))
           = [Some "2024-01-31T00:00:00"; Some "2024-02-01T00:00:00"]
        /\ firstn 2 (skipn 31 (split_on linefeed (body stream)))
           = ["2024-01-31,120.0,110.0,130.0"; "2024-02-01,120.0,110.0,130.0"]).
Proof.
  split.
  - intros L fs user_id product_id filename resp E.
    destruct (@forecast_response_rows L _ _ _ _ _ E)
      as (dates & units & forecast & Hh & Hf & H1 & H2 & H3).
    exists dates, units, forecast. repeat (split; [assumption|]).
    rewrite H2. apply Forall_map. apply List.Forall_forall. intros r _ t E'.
    cbn in E'. inversion E' as [E'']. exact (isoformat_not_ymd _ _ E'').
  - eexists. eexists. split; [vm_compute; reflexivity|].
    split; [vm_compute; reflexivity|]. repeat split; vm_compute; reflexivity.
Qed.

(** C8 on thirty days of one product, oldest first. *)
Lemma C8_witness :
  get_forecast (store "sales.csv" month_sales) 1 "A" "sales.csv"
  = match prophet_forecast
            {| daily_seasonality := true;
               history_ds := dates_of month_sales "A";
               history_y := units_of month_sales "A";
               periods := 30 |} with
    | Some forecast =>
        forecast_answer "A" (dates_of month_sales "A") (units_of month_sales "A") forecast
    | None => Unhandled
    end.
Proof.
  refine (proj1 (proj2 (proj2 (C8_history_in_file_order
            (store "sales.csv" month_sales) 1 "A" "sales.csv"
            (csv_text month_sales) month_sales (col month_sales "product_id")
            (col month_sales "date") (col month_sales "units_sold")
            (dates_of month_sales "A") _ _ _ _ _ _ _))));
    try (vm_compute; reflexivity); try (vm_compute; lia).
Defined.

(** The claim C8 as worded fails on a file that lists its days newest
    first: the checks pass, the forecast succeeds, and the history handed to
    the forecasting library starts with the thirtieth and the twenty-ninth
    of January. *)
Lemma C8_counterexample :
  exists dates units resp,
    forecast_history (store "sales.csv" month_sales_newest_first) 1 "sales.csv" "A"
      dates units
    /\ firstn 2 dates
       = [Some {| ts_year := 2024; ts_month := 1; ts_day := 30; ts_second := 0 |};
          Some {| ts_year := 2024; ts_month := 1; ts_day := 29; ts_second := 0 |}]
    /\ ~ dates_ascending dates
    /\ get_forecast (store "sales.csv" month_sales_newest_first) 1 "A" "sales.csv" = Ok resp
    /\ historical_data resp = map history_record (history (forecast_call dates units)).
Proof.
  exists (dates_of month_sales_newest_first "A"), (units_of month_sales_newest_first "A").
  eexists. split; [|split; [|split; [|split]]].
  - exists (csv_text month_sales_newest_first), month_sales_newest_first,
      (col month_sales_newest_first "product_id"), (col month_sales_newest_first "date"),
      (col month_sales_newest_first "units_sold").
    repeat split; try (vm_compute; reflexivity); try (vm_compute; lia).
  - vm_compute. reflexivity.
  - unfold dates_ascending. intros S.
    assert (dates_of month_sales_newest_first "A"
            = Some {| ts_year := 2024; ts_month := 1; ts_day := 30; ts_second := 0 |}
              :: Some {| ts_year := 2024; ts_month := 1; ts_day := 29; ts_second := 0 |}
              :: skipn 2 (dates_of month_sales_newest_first "A")) as E
      by (vm_compute; reflexivity).
    rewrite E in S. apply Sorted_first_two in S. apply S. vm_compute. reflexivity.
  - vm_compute. reflexivity.
  - vm_compute. reflexivity.
Qed.


End Concrete.

(** * The further properties on concrete files *)

Section ConcreteStore.
Import Examples.
#[local] Existing Instance Examples.libs.

Lemma user_file_path_inj_witness : 1%Z = 1%Z /\ "sales.csv" = "sales.csv".
Proof.
  apply (user_file_path_inj 1 "sales.csv" 1 "sales.csv"). reflexivity.
Defined.

(** An upload of the second user under the name the first user has used. *)
Lemma upload_leaves_other_datasets_witness :
  get_historical_analysis
    (fst (upload_csv (store "sales.csv" month_sales) 2 "sales.csv" (csv_text negative_price)))
    1 "sales.csv"
  = get_historical_analysis (store "sales.csv" month_sales) 1 "sales.csv"
  /\ get_forecast
       (fst (upload_csv (store "sales.csv" month_sales) 2 "sales.csv"
               (csv_text negative_price)))
       1 "A" "sales.csv"
     = get_forecast (store "sales.csv" month_sales) 1 "A" "sales.csv"
  /\ export_forecast_csv
       (fst (upload_csv (store "sales.csv" month_sales) 2 "sales.csv"
               (csv_text negative_price)))
       1 "A" "sales.csv"
     = export_forecast_csv (store "sales.csv" month_sales) 1 "A" "sales.csv".
Proof.
  apply (upload_leaves_other_datasets (store "sales.csv" month_sales) 2 "sales.csv"
           (csv_text negative_price) 1 "sales.csv" "A").
  left. lia.
Defined.

(** A stored file overwritten by one with a negative price. *)
Lemma refused_upload_then_not_found_witness :
  get_historical_analysis ∅ 1 "sales.csv"
    = HTTPException 404 "File not found. Please upload it again."
  /\ get_forecast ∅ 1 "A" "sales.csv"
    = HTTPException 404 "File not found. Please upload it again."
  /\ export_forecast_csv ∅ 1 "A" "sales.csv"
    = HTTPException 404 "File not found. Please upload it again.".
Proof.
  refine (refused_upload_then_not_found (store "sales.csv" month_sales) 1 "sales.csv"
            (csv_text negative_price) ∅ 400
            ("CSV Validation Error: "
               +:+ "'units_sold' and 'price' cannot contain negative values.")
            "A" _ _).
  - vm_compute. reflexivity.
  - vm_compute. reflexivity.
Defined.

(** The same refused upload, sent twice. *)
Lemma upload_csv_idempotent_witness :
  upload_csv
    (fst (upload_csv (store "sales.csv" month_sales) 1 "sales.csv" (csv_text negative_price)))
    1 "sales.csv" (csv_text negative_price)
  = upload_csv (store "sales.csv" month_sales) 1 "sales.csv" (csv_text negative_price).
Proof.
  apply (upload_csv_idempotent (store "sales.csv" month_sales) 1 "sales.csv"
           (csv_text negative_price)).
  intros _. vm_compute. reflexivity.
Defined.

Lemma upload_csv_keeps_storage_valid_witness :
  valid_storage
    (fst (upload_csv (store "sales.csv" small_sales) 1 "month.csv" (csv_text month_sales))).
Proof.
  apply (upload_csv_keeps_storage_valid (store "sales.csv" small_sales) 1 "month.csv"
           (csv_text month_sales)).
  intros path content Hc. unfold store in Hc.
  apply lookup_singleton_Some in Hc as [_ <-].
  apply (validate_upload_valid ∅ "f"). eexists. vm_compute. reflexivity.
Defined.

Lemma forecast_succeeds_with_export_witness :
  (latin_1 "A" = true ->
   header_sendable (content_disposition "A") = true ->
   exists stream,
     export_forecast_csv (store "sales.csv" month_sales) 1 "A" "sales.csv" = Ok stream)
  /\ (latin_1 "A" = false ->
      export_forecast_csv (store "sales.csv" month_sales) 1 "A" "sales.csv" = Unhandled).
Proof.
  refine (forecast_succeeds_with_export (store "sales.csv" month_sales) 1 "A" "sales.csv"
            (forecast_response "A"
               (insight_text format_0f "A" 20 StrongUpward)
               (dates_of month_sales "A") (units_of month_sales "A")
               (forecast_of month_sales "A")) _).
  vm_compute. reflexivity.
Defined.

Lemma listed_products_are_found_witness :
  PStr "A" ∈ [PStr "A"; PStr "B"]
  <-> get_forecast (<[user_file_path 1 "sales.csv" := csv_text small_sales]> ∅)
        1 "A" "sales.csv"
      <> HTTPException 404 ("Product ID '" +:+ "A" +:+ "' not found.").
Proof.
  refine (listed_products_are_found ∅ 1 "sales.csv" (csv_text small_sales)
            (<[user_file_path 1 "sales.csv" := csv_text small_sales]> ∅)
            {| up_message := "CSV validated and saved successfully!";
               up_filename := "sales.csv";
               up_products := [PStr "A"; PStr "B"] |} "A" _).
  vm_compute. reflexivity.
Defined.

(** No sale in the last seven rows of the history, a forecast of twelve. *)
Lemma trend_without_history_witness :
  (above 12 0 -> trend_of (change_percent 0 12) = StrongUpward)
  /\ (~ above 12 0 -> trend_of (change_percent 0 12) = Stable).
Proof.
  apply (trend_without_history 0 12). right. reflexivity.
Defined.
End ConcreteStore.

(** ** Accounts *)

Section AccountFacts.
Context `{AuthLibraries}.

Lemma user_by_email_Some db email u :
  user_by_email db email = Some u -> u ∈ db /\ u_email u = email.
Proof.
  unfold user_by_email. intros Hf. apply find_some in Hf as [Hin He].
  split; [apply list_elem_of_In, Hin | apply String.eqb_eq, He].
Qed.

Lemma user_by_email_None db email :
  user_by_email db email = None <-> email ∉ emails db.
Proof.
  unfold user_by_email, emails. induction db as [|u db IH]; simpl.
  - split; [intros _; apply not_elem_of_nil | reflexivity].
  - rewrite not_elem_of_cons. destruct (String.eqb_spec (u_email u) email) as [E|E].
    + split; [discriminate | intros [Hne _]; congruence].
    + rewrite IH. split; [intros Hn; split; [congruence | exact Hn] | intros [_ Hn]; exact Hn].
Qed.

Lemma user_by_email_app db more email u :
  user_by_email db email = Some u -> user_by_email (db ++ more) email = Some u.
Proof.
  unfold user_by_email. induction db as [|v db IH]; simpl; [discriminate|].
  destruct (String.eqb (u_email v) email); [trivial | exact IH].
Qed.

Lemma user_by_email_snoc db new :
  user_by_email db (u_email new) = None ->
  user_by_email (db ++ [new]) (u_email new) = Some new.
Proof.
  unfold user_by_email. induction db as [|v db IH]; simpl.
  - rewrite String.eqb_refl. reflexivity.
  - destruct (String.eqb (u_email v) (u_email new)); [discriminate | exact IH].
Qed.

Lemma emails_snoc db new : emails (db ++ [new]) = (emails db ++ [u_email new])%list.
Proof. unfold emails. rewrite fmap_app. reflexivity. Qed.

Lemma NoDup_emails_snoc db new :
  NoDup (emails db) -> user_by_email db (u_email new) = None ->
  NoDup (emails (db ++ [new])).
Proof.
  intros Hnd Hnone. rewrite emails_snoc. apply NoDup_app. split; [exact Hnd|].
  split; [|apply NoDup_singleton].
  intros e He Hin. apply list_elem_of_singleton in Hin. subst e.
  apply user_by_email_None in Hnone. contradiction.
Qed.

Lemma register_user_Returned salt user db db' new :
  register_user salt user db = (db', Returned new) ->
  user_by_email db (uc_email user) = None
  /\ db' = (db ++ [new])%list
  /\ u_email new = uc_email user
  /\ u_hashed_password new = pwd_context_hash salt (uc_password user).
Proof.
  unfold register_user. destruct (user_by_email db (uc_email user)); [discriminate|].
  intros [= <- <-]. repeat split.
Qed.

Lemma auth_google_Returned now exchange db db' url :
  auth_google now exchange db = (db', Returned url) ->
  exists user_data user_email db_user,
    exchange = Some (Some user_data)
    /\ user_data !! "email" = Some user_email
    /\ url = "http://localhost:5173/auth/callback?token="
               +:+ create_access_token now {[ "sub" := VStr (u_email db_user) ]}
    /\ u_email db_user = user_email
    /\ ((user_by_email db user_email = Some db_user /\ db' = db)
        \/ (user_by_email db user_email = None /\ db' = (db ++ [db_user])%list
            /\ u_hashed_password db_user = "")).
Proof.
  unfold auth_google. destruct exchange as [[user_data|]|]; try discriminate.
  destruct (bool_decide (user_data = ∅)); [discriminate|].
  destruct (user_data !! "email") as [user_email|] eqn:Hm; [|discriminate].
  destruct (user_by_email db user_email) as [u|] eqn:Hf.
  - intros [= <- <-]. exists user_data, user_email, u.
    pose proof (user_by_email_Some _ _ _ Hf) as [_ He].
    split; [reflexivity|]. split; [exact Hm|]. split; [reflexivity|].
    split; [exact He|]. left. split; [exact Hf | reflexivity].
  - intros [= <- <-].
    exists user_data, user_email,
      {| u_id := next_id db;
         u_email := user_email;
         u_hashed_password := "";
         u_first_name := default "" (user_data !! "given_name");
         u_last_name := default "" (user_data !! "family_name") |}.
    split; [reflexivity|]. split; [exact Hm|]. split; [reflexivity|].
    split; [reflexivity|]. right. split; [exact Hf|]. split; reflexivity.
Qed.

(** X14.  Neither a registration nor a callback of the provider gives two
    rows of the table the same email: if the emails of the table are
    pairwise distinct before the request, they are so after it. *)
Theorem accounts_keep_emails_distinct salt user now exchange db :
  NoDup (emails db) ->
  NoDup (emails (register_user salt user db).1)
  /\ NoDup (emails (auth_google now exchange db).1).
Proof.
  intros Hnd. split.
  - unfold register_user.
    destruct (user_by_email db (uc_email user)) eqn:Hf; simpl; [exact Hnd|].
    apply NoDup_emails_snoc; [exact Hnd | exact Hf].
  - unfold auth_google. destruct exchange as [[user_data|]|]; simpl; try exact Hnd.
    destruct (bool_decide (user_data = ∅)); simpl; [exact Hnd|].
    destruct (user_data !! "email") as [user_email|]; simpl; [|exact Hnd].
    destruct (user_by_email db user_email) eqn:Hf; simpl; [exact Hnd|].
    apply NoDup_emails_snoc; [exact Hnd | exact Hf].
Qed.

(** X15.  No request changes or removes a row: the table after a
    registration or a callback is the table before it followed by at most
    one row, and by none when the request is refused. *)
Theorem account_requests_only_append salt user now exchange db :
  (exists more, (register_user salt user db).1 = (db ++ more)%list
     /\ (length more <= 1)%nat
     /\ (refused (register_user salt user db).2 -> more = []))
  /\ (exists more, (auth_google now exchange db).1 = (db ++ more)%list
     /\ (length more <= 1)%nat
     /\ (refused (auth_google now exchange db).2 -> more = [])).
Proof.
  split.
  - unfold register_user. destruct (user_by_email db (uc_email user)); simpl.
    + exists []. rewrite app_nil_r. repeat split. simpl. lia.
    + eexists [_]. repeat split; [simpl; lia | intros []].
  - unfold auth_google.
    destruct exchange as [[user_data|]|]; simpl;
      try (exists []; rewrite app_nil_r; repeat split; simpl; lia).
    destruct (bool_decide (user_data = ∅)); simpl;
      try (exists []; rewrite app_nil_r; repeat split; simpl; lia).
    destruct (user_data !! "email") as [user_email|]; simpl;
      try (exists []; rewrite app_nil_r; repeat split; simpl; lia).
    destruct (user_by_email db user_email); simpl.
    + exists []. rewrite app_nil_r. repeat split. simpl. lia.
    + eexists [_]. repeat split; [simpl; lia | intros []].
Qed.

(** X16.  After a registration that succeeded, every registration with the
    same email is refused with status 400 and leaves the table as it is,
    whatever its password and names. *)
Theorem register_twice_refused salt user db db' new salt' user' :
  register_user salt user db = (db', Returned new) ->
  uc_email user' = uc_email user ->
  register_user salt' user' db' = (db', Raised 400 "Email already registered" []).
Proof.
  intros Hreg He. apply register_user_Returned in Hreg as (Hnone & -> & Hemail & _).
  unfold register_user. rewrite He, <- Hemail.
  rewrite user_by_email_snoc; [reflexivity | rewrite Hemail; exact Hnone].
Qed.

(** X17.  A user who has registered signs in with the same email and
    password, provided the verifier accepts the password against the hash
    that the registration stored: the login returns a bearer token whose
    subject is the email. *)
Theorem registered_user_signs_in salt user db db' new now :
  register_user salt user db = (db', Returned new) ->
  pwd_context_verify (uc_password user)
    (pwd_context_hash salt (uc_password user)) = Some true ->
  login_for_access_token now (uc_email user) (uc_password user) db'
  = Returned {| access_token :=
                  create_access_token now {[ "sub" := VStr (uc_email user) ]};
                token_type := "bearer" |}.
Proof.
  intros Hreg Hv. apply register_user_Returned in Hreg as (Hnone & -> & Hemail & Hhash).
  unfold login_for_access_token. rewrite <- Hemail.
  rewrite user_by_email_snoc; [|rewrite Hemail; exact Hnone].
  rewrite Hhash, Hv. reflexivity.
Qed.

(** X18.  The token of a login names the user that signed in: when the
    codec reads the token back, [get_current_user] returns the row that the
    login found, also after further rows have been added to the table. *)
Theorem token_names_its_user now t username password db tok :
  login_for_access_token now username password db = Returned tok ->
  codec_accepts now t username ->
  exists user,
    user_by_email db username = Some user
    /\ forall more, get_current_user t (access_token tok) (db ++ more) = Returned user.
Proof.
  unfold login_for_access_token. intros Hlogin (payload & Hdec & Hsub).
  destruct (user_by_email db username) as [user|] eqn:Hf; [|discriminate].
  destruct (pwd_context_verify password (u_hashed_password user)) as [[|]|];
    try discriminate.
  injection Hlogin as <-. exists user. split; [reflexivity|]. intros more.
  pose proof (user_by_email_Some _ _ _ Hf) as [_ He].
  unfold get_current_user. cbn [access_token]. rewrite He, Hdec, Hsub.
  rewrite (user_by_email_app _ more _ _ Hf). reflexivity.
Qed.

(** X19.  A failed login does not tell whether the email is registered: an
    email that is not in the table and a registered email with a password
    that the verifier rejects get the same answer. *)
Theorem login_failure_is_uniform now now' unknown known p p' db user :
  user_by_email db unknown = None ->
  user_by_email db known = Some user ->
  pwd_context_verify p (u_hashed_password user) = Some false ->
  login_for_access_token now unknown p' db = login_for_access_token now' known p db.
Proof.
  intros Hu Hk Hv. unfold login_for_access_token. rewrite Hu, Hk, Hv. reflexivity.
Qed.

(** X20.  A callback that succeeded is not repeated on the table: any later
    callback with the same user info leaves the table as the first one left
    it, and redirects with a token for the same email. *)
Theorem google_callback_idempotent now now' user_data db db' url :
  auth_google now (Some (Some user_data)) db = (db', Returned url) ->
  exists email,
    user_data !! "email" = Some email
    /\ auth_google now' (Some (Some user_data)) db'
       = (db', Returned ("http://localhost:5173/auth/callback?token="
                         +:+ create_access_token now' {[ "sub" := VStr email ]})).
Proof.
  intros Hg. apply auth_google_Returned in Hg
    as (ud & user_email & db_user & [= <-] & Hm & _ & He & Hcase).
  exists user_email. split; [exact Hm|].
  assert (Hfound : user_by_email db' user_email = Some db_user).
  { destruct Hcase as [[Hf ->]|(Hf & -> & _)]; [exact Hf|].
    rewrite <- He. apply user_by_email_snoc. rewrite He. exact Hf. }
  assert (Hne : bool_decide (user_data = ∅) = false).
  { apply bool_decide_eq_false. intros ->. rewrite lookup_empty in Hm. discriminate. }
  unfold auth_google. rewrite Hne, Hm, Hfound, He. reflexivity.
Qed.

(** X21.  A user whom the callback of the provider created has the empty
    text as stored hash, so a password login with that email is answered by
    what the verifier does on the empty hash: an unhandled error when it
    raises, status 401 when it rejects. *)
Theorem google_user_password_login now now' user_data email db db' url password :
  auth_google now (Some (Some user_data)) db = (db', Returned url) ->
  user_data !! "email" = Some email ->
  user_by_email db email = None ->
  login_for_access_token now' email password db' = login_answer now' email password "".
Proof.
  intros Hg Hm Hnone. apply auth_google_Returned in Hg
    as (ud & user_email & db_user & [= <-] & Hm' & _ & He & Hcase).
  rewrite Hm in Hm'. injection Hm' as <-.
  destruct Hcase as [[Hf _]|(_ & -> & Hhash)]; [congruence|].
  unfold login_for_access_token, login_answer. rewrite <- He at 1.
  rewrite user_by_email_snoc; [|rewrite He; exact Hnone].
  rewrite Hhash, He. reflexivity.
Qed.
End AccountFacts.

(** ** The account properties on concrete requests *)

Section ConcreteAccounts.
Import AccountExamples.
#[local] Existing Instance AccountExamples.libs.

Lemma accounts_keep_emails_distinct_witness :
  NoDup (emails (register_user "s2" ann [ann_row]).1)
  /\ NoDup (emails (auth_google 1000 (Some (Some bob_info)) [ann_row]).1).
Proof.
  apply (accounts_keep_emails_distinct "s2" ann 1000 (Some (Some bob_info)) [ann_row]).
  apply NoDup_singleton.
Defined.

Lemma register_twice_refused_witness :
  register_user "s2" {| uc_email := "ann@example.com"; uc_password := "other";
                        uc_first_name := "A"; uc_last_name := "L" |} [ann_row]
  = ([ann_row], Raised 400 "Email already registered" []).
Proof.
  apply (register_twice_refused "s1" ann [] [ann_row] ann_row).
  - vm_compute. reflexivity.
  - reflexivity.
Defined.

Lemma registered_user_signs_in_witness :
  login_for_access_token 1000 "ann@example.com" "correct horse" [ann_row]
  = Returned {| access_token := "2800:ann@example.com"; token_type := "bearer" |}.
Proof.
  refine (eq_trans (registered_user_signs_in "s1" ann [] [ann_row] ann_row 1000 _ _) _).
  - vm_compute. reflexivity.
  - vm_compute. reflexivity.
  - vm_compute. reflexivity.
Defined.

Lemma token_names_its_user_witness :
  exists user,
    user_by_email [ann_row] "ann@example.com" = Some user
    /\ forall more,
         get_current_user 2000 "2800:ann@example.com" ([ann_row] ++ more) = Returned user.
Proof.
  apply (token_names_its_user 1000 2000 "ann@example.com" "correct horse" [ann_row]
           {| access_token := "2800:ann@example.com"; token_type := "bearer" |}).
  - vm_compute. reflexivity.
  - eexists. split; vm_compute; reflexivity.
Defined.

Lemma login_failure_is_uniform_witness :
  login_for_access_token 1000 "eve@example.com" "guess" [ann_row]
  = login_for_access_token 1000 "ann@example.com" "guess" [ann_row].
Proof.
  apply (login_failure_is_uniform 1000 1000 "eve@example.com" "ann@example.com"
           "guess" "guess" [ann_row] ann_row).
  - vm_compute. reflexivity.
  - vm_compute. reflexivity.
  - vm_compute. reflexivity.
Defined.

Lemma google_callback_idempotent_witness :
  exists email,
    bob_info !! "email" = Some email
    /\ auth_google 5000 (Some (Some bob_info)) [ann_row; bob_row]
       = ([ann_row; bob_row],
          Returned ("http://localhost:5173/auth/callback?token="
                    +:+ create_access_token 5000 {[ "sub" := VStr email ]})).
Proof.
  apply (google_callback_idempotent 1000 5000 bob_info [ann_row] [ann_row; bob_row]
           "http://localhost:5173/auth/callback?token=2800:bob@example.com").
  vm_compute. reflexivity.
Defined.

Lemma google_user_password_login_witness :
  login_for_access_token 5000 "bob@example.com" "guess" [ann_row; bob_row] = Uncaught.
Proof.
  refine (eq_trans (google_user_password_login 1000 5000 bob_info "bob@example.com"
                      [ann_row] [ann_row; bob_row]
                      "http://localhost:5173/auth/callback?token=2800:bob@example.com"
                      "guess" _ _ _) _).
  - vm_compute. reflexivity.
  - vm_compute. reflexivity.
  - vm_compute. reflexivity.
  - vm_compute. reflexivity.
Defined.
End ConcreteAccounts.
